(** * sync_patchwork: a shallow embedding of src/sync_patchwork.py

    The script reconciles the pending series of a patch tracker with the
    pull requests of a hosting platform.  The embedding follows the source
    function by function.  Python values are modelled as follows:

    - [str] is [string]; [int] is [Z]; [None]-able values are [option];
    - dictionaries with a fixed set of keys are records, the others are
      association lists;
    - calls on the collaborators held by [ci_data] (tracker, hosting
      client, VCS wrapper, mailer, file system) take their answer from the
      fields of the [CiContext] record, as a function of the arguments of
      the call, and leave an [event] in the trace;
    - exceptions are the [Exc] outcomes of the monad [M];
    - [log_error] and [print] leave an event; [log_debug] and [log_info]
      only feed the logger and are left out. *)

From Stdlib Require Import String Ascii List ZArith Lia Bool DecimalString.
Import ListNotations.
Open Scope string_scope.
Open Scope Z_scope.

Set Implicit Arguments.

(** ** Python string primitives *)

Module Py.

Definition newline : ascii := "010"%char.

(** [s.split('\n')]: the pieces between line feeds; never empty. *)
Fixpoint split_nl (s : string) : list string :=
  match s with
  | EmptyString => [""]
  | String c s' =>
      if Ascii.eqb c newline then "" :: split_nl s'
      else match split_nl s' with
           | l :: ls => String c l :: ls
           | [] => [String c ""]
           end
  end.

(** [s.find(sub)] scanning from offset [i]: lowest index, or -1. *)
Fixpoint find_from (s sub : string) (i : Z) : Z :=
  if String.prefix sub s then i
  else match s with
       | EmptyString => -1
       | String _ s' => find_from s' sub (i + 1)
       end.

Definition find (s sub : string) : Z := find_from s sub 0.

Fixpoint drop (n : nat) (s : string) : string :=
  match n, s with
  | O, _ => s
  | S n', String _ s' => drop n' s'
  | S _, EmptyString => EmptyString
  end.

(** [s[k:]]; a negative [k] counts from the end of [s]. *)
Definition slice_from (s : string) (k : Z) : string :=
  if k <? 0 then drop (Z.to_nat (Z.max 0 (Z.of_nat (String.length s) + k))) s
  else drop (Z.to_nat k) s.

(** [str(n)] for an integer. *)
Definition str_of_int (n : Z) : string := NilZero.string_of_int (Z.to_int n).

(** [f"{x}"] for a value that may be [None]. *)
Definition str_of_opt (x : option string) : string :=
  match x with Some s => s | None => "None" end.

(** [os.path.join(a, b)] on a POSIX system. *)
Definition ends_with_slash (a : string) : bool :=
  match rev (list_ascii_of_string a) with
  | c :: _ => Ascii.eqb c "/"%char
  | [] => false
  end.

Definition path_join (a b : string) : string :=
  if String.prefix "/" b then b
  else if (String.length a =? 0)%nat || ends_with_slash a then a ++ b
  else a ++ "/" ++ b.

(** [x in l] for a list of strings. *)
Definition mem (x : string) (l : list string) : bool :=
  existsb (String.eqb x) l.

Definition is_digit (c : ascii) : bool :=
  let n := nat_of_ascii c in ((48 <=? n) && (n <=? 57))%nat.

(** [int(s)] for a string of decimal digits, the only strings the
    script converts. *)
Definition int_of_digits (s : string) : Z :=
  fold_left (fun acc c => acc * 10 + (Z.of_nat (nat_of_ascii c) - 48))
            (list_ascii_of_string s) 0.

(** The truth value of an exit code. *)
Definition truthy (rc : Z) : bool := negb (rc =? 0).

End Py.

(** ** Data model *)

(** An entry of [series['patches']]. *)
Record Patch := {
  patch_id : Z;
  patch_name : string;
  patch_msgid : string
}.

(** The answer of [pw.get_patch]. *)
Record PatchDetail := {
  pd_check : string;
  pd_diff : option string;
  pd_content : string
}.

Record Series := {
  series_id : Z;
  series_name : option string;
  series_patches : list Patch;
  submitter_email : string
}.

Record PullRequest := {
  pr_number : Z;
  pr_title : string
}.

Record SpaceDetails := {
  sd_include : list string;
  sd_exclude : list string
}.

Record EmailConfig := {
  only_maintainers : option bool;
  maintainers : list string;
  default_to : string
}.

Record Config := {
  branch : string;
  dry_run : bool;
  disable_pr : bool;
  temp_root : string;
  space : string;
  space_details : list (string * SpaceDetails);
  email : EmailConfig
}.

(** ** Effects *)

(** The observable actions of a run, in program order. *)
Inductive event :=
| EvLogError (msg : string)
| EvPrint (msg : string)
| EvPathExists (path : string)
| EvMakedirs (path : string)
| EvWriteFile (path content : string)
| EvGetSeriesByState (state : Z)
| EvGetPatch (id : Z)
| EvGetPatchMbox (id : Z)
| EvPostCheck (id : Z) (context : string) (state : Z) (description : string)
| EvGitCheckout (ref : string) (create_branch : bool)
| EvGitAm (path : string)
| EvGitAmAbort
| EvGitPush (ref : string)
| EvSetReceivers (receivers : list string)
| EvCompose (subject body : string) (headers : list (string * string))
| EvSend
| EvPrExistTitle (needle : string)
| EvCreatePr (title body base head : string)
| EvGetPrs (force : bool)
| EvClosePr (number : Z).

Definition trace := list event.

Inductive exn :=
| StopIteration
| IndexError
| KeyError (key : string)
| TypeError
| SystemExit (code : Z)
| LoopBound.   (* the model's iteration bound was reached; not a Python exception *)

Inductive outcome (A : Type) :=
| Val (a : A)
| Exc (e : exn).
Arguments Val {A} a.
Arguments Exc {A} e.

(** A computation yields its outcome and the events it performed.  An
    exception keeps the events performed before it. *)
Definition M (A : Type) : Type := (outcome A * trace)%type.

Definition ret {A} (a : A) : M A := (Val a, []).

Definition bind {A B} (m : M A) (f : A -> M B) : M B :=
  match m with
  | (Val a, t) => let (r, t') := f a in (r, (t ++ t')%list)
  | (Exc e, t) => (Exc e, t)
  end.

Definition raise {A} (e : exn) : M A := (Exc e, []).
Definition emit (ev : event) : M unit := (Val tt, [ev]).

(** [try: m  except StopIteration: h]. *)
Definition except_StopIteration {A} (m : M A) (h : M A) : M A :=
  match m with
  | (Exc StopIteration, t) => let (r, t') := h in (r, (t ++ t')%list)
  | _ => m
  end.

Declare Scope monad_scope.
Delimit Scope monad_scope with monad.
Notation "x <- c ;; k" := (bind c (fun x => k))
  (at level 61, c at next level, right associativity) : monad_scope.
Notation "c ;;; k" := (bind c (fun _ => k))
  (at level 61, right associativity) : monad_scope.
Open Scope monad_scope.

Definition result_of {A} (m : M A) : outcome A := fst m.
Definition trace_of {A} (m : M A) : trace := snd m.

Definition log_error (msg : string) : M unit := emit (EvLogError msg).

(** ** DiffAnalyzer: patch_get_new_file_list and patch_get_file_list *)

(** [re.search(r'^\-\-\- ', line)]: without MULTILINE the anchor is the
    start of the string, so the test is a prefix test. *)
Definition is_marker (line : string) : bool := String.prefix "--- " line.

(** [line.find('dev/null') >= 0]. *)
Definition has_dev_null (line : string) : bool := 0 <=? Py.find line "dev/null".

(** [line[line.find('/')+1:]]. *)
Definition trim_prefix (line : string) : string :=
  Py.slice_from line (Py.find line "/" + 1).

(** [next(iter_lines)]: the iterator is the list of lines not yet read. *)
Definition next (iter_lines : list string) : M (string * list string) :=
  match iter_lines with
  | [] => raise StopIteration
  | line :: rest => ret (line, rest)
  end.

(** The body of the [for] statement of [patch_get_new_file_list], with
    its [try]/[except]; it returns the iterator and [file_list] it leaves.
    A [next] that raises has changed neither. *)
Definition new_file_body (line : string) (iter_lines file_list : list string)
  : M (list string * list string) :=
  except_StopIteration
    (if is_marker line then
       if has_dev_null line then
         p <- next iter_lines ;;
         let (line2, iter_lines') := p in
         ret (iter_lines', (file_list ++ [trim_prefix line2])%list)
       else ret (iter_lines, file_list)
     else ret (iter_lines, file_list))
    (ret (iter_lines, file_list)).

(** [for line in iter_lines: ...], at most [bound] rounds.  The [for]
    statement ends when its own [next] finds the iterator exhausted. *)
Fixpoint new_file_loop (bound : nat) (iter_lines file_list : list string)
  : M (list string) :=
  match iter_lines with
  | [] => ret file_list
  | line :: rest =>
      match bound with
      | O => raise LoopBound
      | S bound' =>
          st <- new_file_body line rest file_list ;;
          new_file_loop bound' (fst st) (snd st)
      end
  end.

Definition patch_get_new_file_list (patch : option string) : M (list string) :=
  match patch with
  | None => log_error "WARNING: No file found in patch" ;;; ret []
  | Some text =>
      let lines := Py.split_nl text in
      new_file_loop (List.length lines) lines []
  end.

(** The [for line in lines] loop of [patch_get_file_list]. *)
Fixpoint file_loop (lines file_list : list string) : list string :=
  match lines with
  | [] => file_list
  | line :: rest =>
      if is_marker line then
        if has_dev_null line then file_loop rest file_list
        else file_loop rest (file_list ++ [trim_prefix line])%list
      else file_loop rest file_list
  end.

Definition patch_get_file_list (patch : option string) : M (list string) :=
  match patch with
  | None => log_error "WARNING: No file found in patch" ;;; ret []
  | Some text => ret (file_loop (Py.split_nl text) [])
  end.

(** ** The shared context [ci_data] *)

(** [ci_data] bundles the configuration and the collaborators.  A
    collaborator call is answered by the matching field; the call is
    recorded in the trace by the wrappers below. *)
Record CiContext := {
  config : Config;
  src_dir : string;
  os_path_exists : string -> bool;
  pw_get_series_by_state : Z -> list Series;
  pw_get_patch : Z -> PatchDetail;
  pw_get_patch_mbox : Z -> string;
  repo_git_checkout : string -> bool -> Z;
  repo_git_am : string -> Z;
  repo_stderr : string -> string;
  repo_git_push : string -> Z;
  gh_pr_exist_title : string -> bool;
  gh_create_pr : string -> string -> string -> string -> bool;
  gh_get_prs : bool -> list PullRequest
}.

Definition path_exists (ci_data : CiContext) (path : string) : M bool :=
  emit (EvPathExists path) ;;; ret (os_path_exists ci_data path).

Definition get_patch (ci_data : CiContext) (id : Z) : M PatchDetail :=
  emit (EvGetPatch id) ;;; ret (pw_get_patch ci_data id).

Definition get_patch_mbox (ci_data : CiContext) (id : Z) : M string :=
  emit (EvGetPatchMbox id) ;;; ret (pw_get_patch_mbox ci_data id).

Definition post_check (patch : Patch) (context : string) (state : Z)
    (description : string) : M unit :=
  emit (EvPostCheck (patch_id patch) context state description).

Definition git_checkout (ci_data : CiContext) (ref : string)
    (create_branch : bool) : M Z :=
  emit (EvGitCheckout ref create_branch) ;;;
  ret (repo_git_checkout ci_data ref create_branch).

Definition git_am (ci_data : CiContext) (path : string) : M Z :=
  emit (EvGitAm path) ;;; ret (repo_git_am ci_data path).

Definition git_am_abort : M unit := emit EvGitAmAbort.

Definition git_push (ci_data : CiContext) (ref : string) : M Z :=
  emit (EvGitPush ref) ;;; ret (repo_git_push ci_data ref).

Definition pr_exist_title (ci_data : CiContext) (needle : string) : M bool :=
  emit (EvPrExistTitle needle) ;;; ret (gh_pr_exist_title ci_data needle).

Definition create_pr (ci_data : CiContext) (title body base head : string)
  : M bool :=
  emit (EvCreatePr title body base head) ;;;
  ret (gh_create_pr ci_data title body base head).

Definition get_prs (ci_data : CiContext) (force : bool) : M (list PullRequest) :=
  emit (EvGetPrs force) ;;; ret (gh_get_prs ci_data force).

Definition close_pr (number : Z) : M unit := emit (EvClosePr number).

(** [l[0]] on a list. *)
Definition first_item {A} (l : list A) : M A :=
  match l with
  | [] => raise IndexError
  | x :: _ => ret x
  end.

(** [d[key]] on a dictionary kept as an association list. *)
Fixpoint dict_get {A} (d : list (string * A)) (key : string) : M A :=
  match d with
  | [] => raise (KeyError key)
  | (k, v) :: rest => if String.eqb k key then ret v else dict_get rest key
  end.

(** ** series_get_file_list *)

(** The [for patch in series['patches']] loop, threading both lists. *)
Fixpoint gather_file_lists (ci_data : CiContext) (ignore_new_file : bool)
    (patches : list Patch) (file_list new_file_list : list string)
  : M (list string * list string) :=
  match patches with
  | [] => ret (file_list, new_file_list)
  | patch :: rest =>
      full_patch <- get_patch ci_data (patch_id patch) ;;
      fl <- patch_get_file_list (pd_diff full_patch) ;;
      nfl <- (if ignore_new_file
              then patch_get_new_file_list (pd_diff full_patch)
              else ret []) ;;
      gather_file_lists ci_data ignore_new_file rest
        (file_list ++ fl)%list (new_file_list ++ nfl)%list
  end.

Definition series_get_file_list (ci_data : CiContext) (series : Series)
    (ignore_new_file : bool) : M (list string) :=
  p <- gather_file_lists ci_data ignore_new_file (series_patches series) [] [] ;;
  let (file_list, new_file_list) := p in
  if negb ignore_new_file || (List.length new_file_list =? 0)%nat
  then ret file_list
  else ret (filter (fun filename => negb (Py.mem filename new_file_list))
                   file_list).

(** ** send_email *)

Definition EMAIL_MESSAGE_head : string :=
"This is an automated email and please do not reply to this email.

Dear Submitter,

Thank you for submitting the patches to the linux bluetooth mailing list.
While preparing the CI tests, the patches you submitted couldn't be applied to the current HEAD of the repository.

----- Output -----
".

Definition EMAIL_MESSAGE_tail : string :=
"

Please resolve the issue and submit the patches again.


---
Regards,
Linux Bluetooth

".

(** [EMAIL_MESSAGE.format(content=content)]. *)
Definition EMAIL_MESSAGE_format (content : string) : string :=
  EMAIL_MESSAGE_head ++ content ++ EMAIL_MESSAGE_tail.

Definition is_maintainers_only (email_config : EmailConfig) : bool :=
  match only_maintainers email_config with
  | Some true => true
  | _ => false
  end.

Definition get_receivers (email_config : EmailConfig) (submitter : string)
  : list string :=
  if is_maintainers_only email_config then maintainers email_config
  else [default_to email_config; submitter].

Definition send_email (ci_data : CiContext) (series : Series)
    (content : string) : M unit :=
  let email_config := email (config ci_data) in
  let body := EMAIL_MESSAGE_format content in
  patch_1 <- first_item (series_patches series) ;;
  let headers := [("In-Reply-To", patch_msgid patch_1);
                  ("References", patch_msgid patch_1)] in
  let headers :=
    if negb (is_maintainers_only email_config)
    then (headers ++ [("Reply-To", default_to email_config)])%list
    else headers in
  let receivers := get_receivers email_config (submitter_email series) in
  emit (EvSetReceivers receivers) ;;;
  emit (EvCompose ("RE: " ++ Py.str_of_opt (series_name series)) body headers) ;;;
  if dry_run (config ci_data) then ret tt
  else emit EvSend.

(** ** series_check_patches *)

(** The [for patch in series['patches']] loop; it yields [verdict] and
    [content] as the loop leaves them. *)
Fixpoint apply_patches (ci_data : CiContext) (series_dir : string)
    (already_checked : bool) (patches : list Patch) : M (bool * string) :=
  match patches with
  | [] => ret (true, "")
  | patch :: rest =>
      patch_mbox <- get_patch_mbox ci_data (patch_id patch) ;;
      let patch_path :=
        Py.path_join series_dir (Py.str_of_int (patch_id patch) ++ ".patch") in
      emit (EvWriteFile patch_path patch_mbox) ;;;
      rc <- git_am ci_data patch_path ;;
      if Py.truthy rc then
        let content := repo_stderr ci_data patch_path in
        git_am_abort ;;;
        if dry_run (config ci_data) || already_checked
        then ret (false, content)
        else post_check patch "pre-ci_am" 3 content ;;; ret (false, content)
      else
        (if dry_run (config ci_data) || already_checked
         then ret tt
         else post_check patch "pre-ci_am" 1 "Success") ;;;
        apply_patches ci_data series_dir already_checked rest
  end.

Definition series_check_patches (ci_data : CiContext) (series : Series)
  : M bool :=
  let cfg := config ci_data in
  let sid := Py.str_of_int (series_id series) in
  let series_dir := Py.path_join (temp_root cfg) sid in
  present <- path_exists ci_data series_dir ;;
  (if negb present then emit (EvMakedirs series_dir) else ret tt) ;;;
  rc <- git_checkout ci_data (branch cfg) false ;;
  if Py.truthy rc then
    log_error ("ERROR: Failed: git checkout " ++ branch cfg) ;;; ret false
  else
  rc <- git_checkout ci_data sid true ;;
  if Py.truthy rc then
    log_error ("ERROR: Failed: git checkout -b " ++ sid) ;;; ret false
  else
  p0 <- first_item (series_patches series) ;;
  patch_1 <- get_patch ci_data (patch_id p0) ;;
  let already_checked := negb (String.eqb (pd_check patch_1) "pending") in
  r <- apply_patches ci_data series_dir already_checked (series_patches series) ;;
  let (verdict, content) := r in
  if negb verdict then
    if dry_run cfg || already_checked then ret false
    else send_email ci_data series content ;;; ret false
  else
  if disable_pr cfg then ret true
  else
  rc <- git_push ci_data sid ;;
  if Py.truthy rc then
    log_error "Failed to push the source to Github" ;;; ret false
  else
  let title := "[PW_SID:" ++ sid ++ "] " ++ Py.str_of_opt (series_name series) in
  p0 <- first_item (series_patches series) ;;
  patch_1 <- get_patch ci_data (patch_id p0) ;;
  ok <- create_pr ci_data title (pd_content patch_1) (branch cfg) sid ;;
  if ok then ret true else ret false.

(** ** PRReconciler: sid_in_series_list and cleanup_pullrequest *)

(** Splits a string into its longest prefix of decimal digits and the rest. *)
Fixpoint take_digits (s : string) : string * string :=
  match s with
  | EmptyString => (EmptyString, EmptyString)
  | String c s' =>
      if Py.is_digit c
      then let (d, r) := take_digits s' in (String c d, r)
      else (EmptyString, s)
  end.

(** The tag [[PW_SID:<integer>]] at the very start of [s]. *)
Definition tag_at (s : string) : option string :=
  if String.prefix "[PW_SID:" s then
    let (d, r) := take_digits (Py.drop 8 s) in
    if negb (String.eqb d "") && String.prefix "]" r then Some d else None
  else None.

(** Modelled from the spec: [pr_get_sid] of [libs] is not part of the
    sources at hand.  The title is parsed for the tag [[PW_SID:<integer>]],
    tolerant of arbitrary surrounding text and case-sensitive on the
    keyword; the digits of the first tag found are returned, [None] when
    no tag parses. *)
Fixpoint pr_get_sid (title : string) : option string :=
  match tag_at title with
  | Some d => Some d
  | None =>
      match title with
      | EmptyString => None
      | String _ rest => pr_get_sid rest
      end
  end.

Fixpoint sid_in_series_list (sid : string) (series_list : list Series)
  : option Series :=
  match series_list with
  | [] => None
  | series :: rest =>
      if Py.int_of_digits sid =? series_id series then Some series
      else sid_in_series_list sid rest
  end.

(** The [for pr in prs] loop.  [not pw_sid] holds for [None] and for the
    empty string. *)
Fixpoint cleanup_loop (new_series : list Series) (prs : list PullRequest)
  : M unit :=
  match prs with
  | [] => ret tt
  | pr :: rest =>
      match pr_get_sid (pr_title pr) with
      | None => cleanup_loop new_series rest
      | Some pw_sid =>
          if String.eqb pw_sid "" then cleanup_loop new_series rest
          else match sid_in_series_list pw_sid new_series with
               | Some _ => cleanup_loop new_series rest
               | None => close_pr (pr_number pr) ;;; cleanup_loop new_series rest
               end
      end
  end.

Definition cleanup_pullrequest (ci_data : CiContext) (new_series : list Series)
  : M unit :=
  prs <- get_prs ci_data true ;;
  cleanup_loop new_series prs.

(** ** RepoSpaceFilter, run_series and main *)

Record Args := {
  arg_config : string;
  arg_branch : string;
  arg_src_dir : string;
  arg_dry_run : bool;
  arg_disable_pr : bool;
  arg_space : string;
  arg_repo : string
}.

Section Engine.

(** [re.search(pattern, text, re.IGNORECASE)] as a truth value, for the
    patterns of the configuration (valid regular expressions). *)
Variable re_search_ignorecase : string -> string -> bool.

(** [re.search(str, series['name'], re.IGNORECASE)]; a [None] name is a
    [TypeError]. *)
Definition re_search (str : string) (name : option string) : M bool :=
  match name with
  | None => raise TypeError
  | Some text => ret (re_search_ignorecase str text)
  end.

(** [for str in patterns: if re.search(...): return ...]; [true] when
    the loop returned at a match. *)
Fixpoint search_any (patterns : list string) (name : option string) : M bool :=
  match patterns with
  | [] => ret false
  | str :: rest =>
      hit <- re_search str name ;;
      if hit then ret true else search_any rest name
  end.

(** The [for filename in file_list] loop with the statements after it. *)
Fixpoint files_exist (ci_data : CiContext) (src_dir : string)
    (file_list : list string) : M bool :=
  match file_list with
  | [] => emit (EvPrint "Files exist in the source tree.") ;;; ret true
  | filename :: rest =>
      present <- path_exists ci_data (Py.path_join src_dir filename) ;;
      if negb present then
        log_error ("File not found: " ++ filename) ;;; ret false
      else files_exist ci_data src_dir rest
  end.

Definition filter_repo_space (ci_data : CiContext)
    (space_details : SpaceDetails) (series : Series) (src_dir : string)
  : M bool :=
  excluded <- search_any (sd_exclude space_details) (series_name series) ;;
  if excluded then ret false
  else
  included <- search_any (sd_include space_details) (series_name series) ;;
  if included then ret true
  else
  file_list <- series_get_file_list ci_data series true ;;
  if (List.length file_list =? 0)%nat then
    log_error "ERROR: No files found in the series/patch" ;;; ret false
  else
  files_exist ci_data src_dir file_list.

Definition set_name (series : Series) (name : string) : Series :=
  {| series_id := series_id series;
     series_name := Some name;
     series_patches := series_patches series;
     submitter_email := submitter_email series |}.

(** The [for series in new_series] loop.  A missing name is written
    into the series itself, so the loop yields the list as it leaves it. *)
Fixpoint run_series_loop (ci_data : CiContext) (space_details : SpaceDetails)
    (new_series : list Series) : M (list Series) :=
  match new_series with
  | [] => ret []
  | series :: rest =>
      series <- match series_name series with
                | None =>
                    patch_1 <- first_item (series_patches series) ;;
                    ret (set_name series (patch_name patch_1))
                | Some _ => ret series
                end ;;
      belongs <- filter_repo_space ci_data space_details series
                   (src_dir ci_data) ;;
      (if negb belongs then ret tt
       else
         exists_already <-
           pr_exist_title ci_data ("PW_SID:" ++ Py.str_of_int (series_id series)) ;;
         if exists_already then ret tt
         else series_check_patches ci_data series ;;; ret tt) ;;;
      rest' <- run_series_loop ci_data space_details rest ;;
      ret (series :: rest')
  end.

Definition run_series (ci_data : CiContext) (new_series : list Series)
  : M (list Series) :=
  space_details <- dict_get (space_details (config ci_data))
                            (space (config ci_data)) ;;
  run_series_loop ci_data space_details new_series.

(** What [main] takes from its host: [os.path.exists] after
    [os.path.abspath], the fresh temporary directory name, and the
    constructor of [ci_data]. *)
Variable exists_abspath : string -> bool.
Variable fresh_temp_root : string.
Variable make_context : Args -> string -> CiContext.

Definition check_args (args : Args) : M bool :=
  if negb (exists_abspath (arg_config args)) then
    log_error ("Invalid parameter(config) " ++ arg_config args) ;;; ret false
  else if negb (String.eqb (arg_space args) "kernel")
          && negb (String.eqb (arg_space args) "user") then
    log_error ("Invalid parameter(space) " ++ arg_space args) ;;; ret false
  else if negb (exists_abspath (arg_src_dir args)) then
    log_error ("Invalid parameter(src_dir) " ++ arg_src_dir args) ;;; ret false
  else ret true.

Definition main (args : Args) : M unit :=
  ok <- check_args args ;;
  if negb ok then raise (SystemExit 1)
  else
  let ci_data := make_context args fresh_temp_root in
  emit (EvGetSeriesByState 1) ;;;
  let new_series := pw_get_series_by_state ci_data 1 in
  if (List.length new_series =? 0)%nat then ret tt
  else
  new_series <- run_series ci_data new_series ;;
  cleanup_pullrequest ci_data new_series.

End Engine.

(** ** A concrete setting for running the model *)

Module Fixture.

Definition nl : string := String Py.newline "".

Definition lower_char (c : ascii) : ascii :=
  let n := nat_of_ascii c in
  if ((65 <=? n) && (n <=? 90))%nat then ascii_of_nat (n + 32) else c.

Fixpoint lower (s : string) : string :=
  match s with
  | EmptyString => EmptyString
  | String c s' => String (lower_char c) (lower s')
  end.

(** [re.search] with IGNORECASE for the patterns made of an optional
    leading [^] and plain letters, digits and spaces. *)
Definition literal_search (pattern text : string) : bool :=
  match pattern with
  | String "^"%char p => String.prefix (lower p) (lower text)
  | _ => 0 <=? Py.find (lower text) (lower pattern)
  end.

Definition patch (id : Z) : Patch :=
  {| patch_id := id; patch_name := "patch " ++ Py.str_of_int id;
     patch_msgid := "<msg" ++ Py.str_of_int id ++ "@example>" |}.

Definition series3 : Series :=
  {| series_id := 7; series_name := Some "BlueZ: feature";
     series_patches := [patch 1; patch 2; patch 3];
     submitter_email := "dev@example.org" |}.

Definition cfg (dry no_pr : bool) : Config :=
  {| branch := "master"; dry_run := dry; disable_pr := no_pr;
     temp_root := "/tmp/x"; space := "user";
     space_details :=
       [("user", {| sd_include := ["^BlueZ"]; sd_exclude := ["^RFC"] |});
        ("kernel", {| sd_include := []; sd_exclude := [] |})];
     email := {| only_maintainers := None; maintainers := ["m@example.org"];
                 default_to := "list@example.org" |} |}.

Definition makefile_diff : string :=
  "--- a/Makefile" ++ nl ++ "+++ b/Makefile" ++ nl ++ "@@ -1 +1 @@".

(** Every external call succeeds, except [git am] on the patches whose
    file name is listed in [failing]. *)
Definition ci (dry no_pr : bool) (failing : list string)
    (pending : list Series) (prs : list PullRequest) : CiContext :=
  {| config := cfg dry no_pr;
     src_dir := "/src";
     os_path_exists := fun path => String.eqb path "/src/Makefile";
     pw_get_series_by_state := fun _ => pending;
     pw_get_patch := fun _ =>
       {| pd_check := "pending"; pd_diff := Some makefile_diff;
          pd_content := "commit message" |};
     pw_get_patch_mbox := fun id => "mbox " ++ Py.str_of_int id;
     repo_git_checkout := fun _ _ => 0;
     repo_git_am := fun path => if Py.mem path failing then 1 else 0;
     repo_stderr := fun _ => "error: patch failed";
     repo_git_push := fun _ => 0;
     gh_pr_exist_title := fun _ => false;
     gh_create_pr := fun _ _ _ _ => true;
     gh_get_prs := fun _ => prs |}.

Definition open_prs : list PullRequest :=
  [ {| pr_number := 1; pr_title := "[PW_SID:10] foo" |};
    {| pr_number := 2; pr_title := "[PW_SID:99] bar" |};
    {| pr_number := 3; pr_title := "Unrelated PR" |} ].

Definition args : Args :=
  {| arg_config := "./config.json"; arg_branch := "master";
     arg_src_dir := "/src"; arg_dry_run := false; arg_disable_pr := false;
     arg_space := "user"; arg_repo := "bluez/bluez" |}.

End Fixture.

(** * Vocabulary of the statements *)

Unset Implicit Arguments.

(** [after_events t m]: the computation [m], run after the events [t]. *)
Definition after_events {A} (t : trace) (m : M A) : M A :=
  (result_of m, (t ++ trace_of m)%list).

(** The lines that [patch_get_file_list] keeps. *)
Definition kept_marker (line : string) : bool :=
  is_marker line && negb (has_dev_null line).

(** The lines that [patch_get_new_file_list] takes as a file creation. *)
Definition creation_marker (line : string) : bool :=
  is_marker line && has_dev_null line.

(** The entries [patch_get_new_file_list] collects from a list of lines:
    a creation marker consumes the line after it. *)
Fixpoint created (lines : list string) : list string :=
  match lines with
  | [] => []
  | line :: rest =>
      if creation_marker line then
        match rest with
        | [] => []
        | line2 :: rest' => trim_prefix line2 :: created rest'
        end
      else created rest
  end.

(** [ends_open lines]: the scan of [lines] stops inside the [next] call
    of a creation marker, so a line appended to [lines] would be read as
    that marker's successor and not as a line of the [for] statement. *)
Fixpoint ends_open (lines : list string) : bool :=
  match lines with
  | [] => false
  | line :: rest =>
      if creation_marker line then
        match rest with
        | [] => true
        | _ :: rest' => ends_open rest'
        end
      else ends_open rest
  end.

(** [no_slash s]: the character [/] does not occur in [s]. *)
Fixpoint no_slash (s : string) : bool :=
  match s with
  | EmptyString => true
  | String c s' => negb (Ascii.eqb c "/"%char) && no_slash s'
  end.

(** The claim of C4 reads a marker as null when the text after [--- ] is
    the sentinel itself. *)
Definition non_null_marker (line : string) : bool :=
  is_marker line && negb (String.eqb (Py.drop 4 line) "/dev/null").

(** The reading of C4: one entry for each marker other than the sentinel. *)
Definition counts_non_null_markers (text : string) : Prop :=
  forall file_list,
    patch_get_file_list (Some text) = ret file_list ->
    List.length file_list =
      List.length (filter non_null_marker (Py.split_nl text)).

(** [entry_of line entry]: when [line] is [--- <prefix>/<path>], with no
    [/] in the prefix, the entry is [<path>]. *)
Definition entry_of (line entry : string) : Prop :=
  forall prefix path,
    no_slash prefix = true ->
    line = "--- " ++ prefix ++ "/" ++ path ->
    entry = path.

(** The reading of C9 for [patch_get_file_list]: a marker on the last
    line is skipped, so the result is that of the lines before it. *)
Definition last_line_marker_skipped (text : string) : Prop :=
  forall pre marker,
    Py.split_nl text = (pre ++ [marker])%list ->
    is_marker marker = true ->
    patch_get_file_list (Some text) = ret (file_loop pre []).

(** The reading of C10 for [patch_get_new_file_list]: the successor of
    every marker line that contains [dev/null] is emitted. *)
Definition emits_every_successor (text : string) : Prop :=
  forall pre marker line2 post,
    Py.split_nl text = (pre ++ marker :: line2 :: post)%list ->
    creation_marker marker = true ->
    exists file_list,
      patch_get_new_file_list (Some text) = ret file_list /\
      In (trim_prefix line2) file_list.

(** [known_id new_series n]: [n] is the id of a candidate series. *)
Definition known_id (new_series : list Series) (n : Z) : bool :=
  existsb (Z.eqb n) (map series_id new_series).

(** [stale new_series pr]: the title of [pr] yields a tag, and the id of
    the tag is not the id of a candidate series. *)
Definition stale (new_series : list Series) (pr : PullRequest) : bool :=
  match pr_get_sid (pr_title pr) with
  | Some sid => negb (known_id new_series (Py.int_of_digits sid))
  | None => false
  end.

(** [matches_any re patterns name]: some pattern of the list is found in
    [name]. *)
Definition matches_any (re_search_ignorecase : string -> string -> bool)
    (patterns : list string) (name : string) : bool :=
  existsb (fun str => re_search_ignorecase str name) patterns.

(** The value a computation returns, or [default] if it raises. *)
Definition value_or {A} (default : A) (m : M A) : A :=
  match result_of m with
  | Val a => a
  | Exc _ => default
  end.

(** The diff the tracker holds for an entry of [series['patches']]. *)
Definition diff_of (ci_data : CiContext) (patch : Patch) : option string :=
  pd_diff (pw_get_patch ci_data (patch_id patch)).

(** The file lists of all patches of a series, one after the other. *)
Definition series_files (ci_data : CiContext) (series : Series) : list string :=
  flat_map (fun patch => value_or [] (patch_get_file_list (diff_of ci_data patch)))
           (series_patches series).

Definition series_new_files (ci_data : CiContext) (series : Series) : list string :=
  flat_map (fun patch => value_or [] (patch_get_new_file_list (diff_of ci_data patch)))
           (series_patches series).

(** The files of the series that no patch of the series creates. *)
Definition files_excluding_new (ci_data : CiContext) (series : Series) : list string :=
  filter (fun filename => negb (Py.mem filename (series_new_files ci_data series)))
         (series_files ci_data series).

Definition present_under (ci_data : CiContext) (src_dir filename : string) : bool :=
  os_path_exists ci_data (Py.path_join src_dir filename).

Definition series_dir_of (ci_data : CiContext) (series : Series) : string :=
  Py.path_join (temp_root (config ci_data)) (Py.str_of_int (series_id series)).

Definition patch_path_of (series_dir : string) (patch : Patch) : string :=
  Py.path_join series_dir (Py.str_of_int (patch_id patch) ++ ".patch").

(** [applies ci_data series_dir patch]: [git am] on the saved mailbox of
    [patch] ends with exit code 0. *)
Definition applies (ci_data : CiContext) (series_dir : string) (patch : Patch)
  : bool :=
  negb (Py.truthy (repo_git_am ci_data (patch_path_of series_dir patch))).

(** The checkout of the base branch and the creation of the series branch
    both end with exit code 0. *)
Definition checkouts_succeed (ci_data : CiContext) (series : Series) : bool :=
  negb (Py.truthy (repo_git_checkout ci_data (branch (config ci_data)) false)) &&
  negb (Py.truthy (repo_git_checkout ci_data (Py.str_of_int (series_id series)) true)).

(** The tracker holds a check other than [pending] for the first patch. *)
Definition already_checked_of (ci_data : CiContext) (series : Series) : bool :=
  match series_patches series with
  | [] => false
  | p0 :: _ => negb (String.eqb (pd_check (pw_get_patch ci_data (patch_id p0))) "pending")
  end.

(** The events up to the loop over the patches. *)
Definition setup_events (ci_data : CiContext) (series : Series) : trace :=
  (EvPathExists (series_dir_of ci_data series) ::
   (if os_path_exists ci_data (series_dir_of ci_data series) then []
    else [EvMakedirs (series_dir_of ci_data series)]) ++
   [EvGitCheckout (branch (config ci_data)) false;
    EvGitCheckout (Py.str_of_int (series_id series)) true] ++
   match series_patches series with
   | [] => []
   | p0 :: _ => [EvGetPatch (patch_id p0)]
   end)%list.

(** Saving the mailbox of a patch and running [git am] on it. *)
Definition attempt_events (ci_data : CiContext) (series_dir : string)
    (patch : Patch) : trace :=
  [EvGetPatchMbox (patch_id patch);
   EvWriteFile (patch_path_of series_dir patch)
               (pw_get_patch_mbox ci_data (patch_id patch));
   EvGitAm (patch_path_of series_dir patch)].

(** A patch that applies: the attempt, then its success check unless
    reporting is off. *)
Definition applied_events (ci_data : CiContext) (series_dir : string)
    (quiet : bool) (patch : Patch) : trace :=
  (attempt_events ci_data series_dir patch ++
   (if quiet then []
    else [EvPostCheck (patch_id patch) "pre-ci_am" 1 "Success"]))%list.

(** A patch that does not apply: the attempt, the abort, then its
    failure check unless reporting is off. *)
Definition failed_events (ci_data : CiContext) (series_dir : string)
    (quiet : bool) (patch : Patch) : trace :=
  (attempt_events ci_data series_dir patch ++
   EvGitAmAbort ::
   (if quiet then []
    else [EvPostCheck (patch_id patch) "pre-ci_am" 3
            (repo_stderr ci_data (patch_path_of series_dir patch))]))%list.

(** The push of the series branch and the request of the pull request. *)
Definition pushes_or_requests (ev : event) : bool :=
  match ev with
  | EvGitPush _ | EvCreatePr _ _ _ _ => true
  | _ => false
  end.

(** The reading of C1: under dry-run nothing is pushed and no pull
    request is requested. *)
Definition dry_run_suppresses_pull_request (ci_data : CiContext)
    (series : Series) : Prop :=
  dry_run (config ci_data) = true ->
  disable_pr (config ci_data) = false ->
  forallb (applies ci_data (series_dir_of ci_data series))
          (series_patches series) = true ->
  existsb pushes_or_requests
          (trace_of (series_check_patches ci_data series)) = false.

(** The events by which a notification is composed. *)
Definition composes (ev : event) : bool :=
  match ev with
  | EvSetReceivers _ | EvCompose _ _ _ => true
  | _ => false
  end.

Definition sends (ev : event) : bool :=
  match ev with
  | EvSend => true
  | _ => false
  end.

(** The reading of C2: under dry-run, when a patch fails, the
    notification is composed and only the send is skipped. *)
Definition dry_run_composes_notification (ci_data : CiContext)
    (series : Series) : Prop :=
  dry_run (config ci_data) = true ->
  forallb (applies ci_data (series_dir_of ci_data series))
          (series_patches series) = false ->
  existsb composes (trace_of (series_check_patches ci_data series)) = true /\
  existsb sends (trace_of (series_check_patches ci_data series)) = false.

(** The forced refresh of the open pull requests opens the cleanup pass
    and occurs nowhere else. *)
Definition is_get_prs (ev : event) : bool :=
  match ev with
  | EvGetPrs _ => true
  | _ => false
  end.

(** The number of cleanup passes a trace holds. *)
Definition cleanup_passes (t : trace) : nat := List.length (filter is_get_prs t).

Definition no_cleanup {A} (m : M A) : Prop := cleanup_passes (trace_of m) = 0%nat.

(** The reading of C3: every run holds exactly one cleanup pass. *)
Definition cleanup_runs_once (re_search_ignorecase : string -> string -> bool)
    (exists_abspath : string -> bool) (fresh_temp_root : string)
    (make_context : Args -> string -> CiContext) (args : Args) : Prop :=
  cleanup_passes
    (trace_of (main re_search_ignorecase exists_abspath fresh_temp_root
                 make_context args)) = 1%nat.

(** [returns m]: the computation [m] ends with a value, not with an
    exception. *)
Definition returns {A} (m : M A) : Prop := exists a, result_of m = Val a.


(** The configuration has details for the space of the run. *)
Definition space_configured (ci_data : CiContext) : bool :=
  existsb (fun entry => String.eqb (fst entry) (space (config ci_data)))
          (space_details (config ci_data)).

(** The three tests of [check_args]. *)
Definition valid_args (exists_abspath : string -> bool) (args : Args) : bool :=
  exists_abspath (arg_config args) &&
  (String.eqb (arg_space args) "kernel" || String.eqb (arg_space args) "user") &&
  exists_abspath (arg_src_dir args).

(** ** Vocabulary of the further properties *)

(** A line feed, as a string. *)
Definition line_feed : string := String Py.newline "".

(** [marker_free diff]: no line of [diff] starts with [--- ]. *)
Definition marker_free (diff : option string) : bool :=
  match diff with
  | None => true
  | Some text => forallb (fun line => negb (is_marker line)) (Py.split_nl text)
  end.

(** [within P m]: every event of [m] satisfies [P]. *)
Definition within {A} (P : event -> bool) (m : M A) : Prop :=
  forallb P (trace_of m) = true.

(** The events that only read: tracker fetches of a patch, existence
    tests, and what goes to the log or the console. *)
Definition reads (ev : event) : bool :=
  match ev with
  | EvGetPatch _ | EvPathExists _ | EvLogError _ | EvPrint _ => true
  | _ => false
  end.

Definition is_get_patch (ev : event) : bool :=
  match ev with
  | EvGetPatch _ => true
  | _ => false
  end.

(** A context like that of [Fixture.ci], whose tracker holds [diff] for every
    patch. *)
Definition ci_with_diff (diff : option string) : CiContext :=
  {| config := Fixture.cfg false false;
     src_dir := "/src";
     os_path_exists := fun path => String.eqb path "/src/Makefile";
     pw_get_series_by_state := fun _ => [];
     pw_get_patch := fun _ =>
       {| pd_check := "pending"; pd_diff := diff; pd_content := "" |};
     pw_get_patch_mbox := fun _ => "";
     repo_git_checkout := fun _ _ => 0;
     repo_git_am := fun _ => 0;
     repo_stderr := fun _ => "";
     repo_git_push := fun _ => 0;
     gh_pr_exist_title := fun _ => false;
     gh_create_pr := fun _ _ _ _ => true;
     gh_get_prs := fun _ => [] |}.

(** The events that report: a check posted to the tracker, and the steps
    of the notification. *)
Definition reports (ev : event) : bool :=
  match ev with
  | EvPostCheck _ _ _ _ | EvSetReceivers _ | EvCompose _ _ _ | EvSend => true
  | _ => false
  end.

(** The checks this script may post: context [pre-ci_am], state 1 or 3. *)
Definition pre_ci_am_check (context : string) (state : Z) : bool :=
  String.eqb context "pre-ci_am" && ((state =? 1) || (state =? 3)).

(** The events [series_check_patches] may perform for a series whose
    reporting is off ([quiet]) or on. *)
Definition series_alphabet (ci_data : CiContext) (quiet : bool) (ev : event)
  : bool :=
  match ev with
  | EvPathExists _ | EvMakedirs _ | EvWriteFile _ _ | EvGetPatch _
  | EvGetPatchMbox _ | EvGitCheckout _ _ | EvGitAm _ | EvGitAmAbort
  | EvLogError _ => true
  | EvPostCheck _ context state _ => negb quiet && pre_ci_am_check context state
  | EvSetReceivers _ | EvCompose _ _ _ | EvSend => negb quiet
  | EvGitPush _ | EvCreatePr _ _ _ _ => negb (disable_pr (config ci_data))
  | _ => false
  end.

(** The events a whole run may perform under its two flags. *)
Definition run_alphabet (ci_data : CiContext) (ev : event) : bool :=
  match ev with
  | EvPostCheck _ context state _ =>
      negb (dry_run (config ci_data)) && pre_ci_am_check context state
  | EvSetReceivers _ | EvCompose _ _ _ | EvSend => negb (dry_run (config ci_data))
  | EvGitPush _ | EvCreatePr _ _ _ _ => negb (disable_pr (config ci_data))
  | _ => true
  end.

(** Variations of a context, for concrete runs. *)
Definition with_config (ci_data : CiContext) (cfg : Config) : CiContext :=
  {| config := cfg;
     src_dir := src_dir ci_data;
     os_path_exists := os_path_exists ci_data;
     pw_get_series_by_state := pw_get_series_by_state ci_data;
     pw_get_patch := pw_get_patch ci_data;
     pw_get_patch_mbox := pw_get_patch_mbox ci_data;
     repo_git_checkout := repo_git_checkout ci_data;
     repo_git_am := repo_git_am ci_data;
     repo_stderr := repo_stderr ci_data;
     repo_git_push := repo_git_push ci_data;
     gh_pr_exist_title := gh_pr_exist_title ci_data;
     gh_create_pr := gh_create_pr ci_data;
     gh_get_prs := gh_get_prs ci_data |}.

Definition with_repo (ci_data : CiContext) (checkout : string -> bool -> Z)
    (push : string -> Z) : CiContext :=
  {| config := config ci_data;
     src_dir := src_dir ci_data;
     os_path_exists := os_path_exists ci_data;
     pw_get_series_by_state := pw_get_series_by_state ci_data;
     pw_get_patch := pw_get_patch ci_data;
     pw_get_patch_mbox := pw_get_patch_mbox ci_data;
     repo_git_checkout := checkout;
     repo_git_am := repo_git_am ci_data;
     repo_stderr := repo_stderr ci_data;
     repo_git_push := push;
     gh_pr_exist_title := gh_pr_exist_title ci_data;
     gh_create_pr := gh_create_pr ci_data;
     gh_get_prs := gh_get_prs ci_data |}.

Definition with_hosting (ci_data : CiContext) (pr_exists : string -> bool)
    (prs : list PullRequest) : CiContext :=
  {| config := config ci_data;
     src_dir := src_dir ci_data;
     os_path_exists := os_path_exists ci_data;
     pw_get_series_by_state := pw_get_series_by_state ci_data;
     pw_get_patch := pw_get_patch ci_data;
     pw_get_patch_mbox := pw_get_patch_mbox ci_data;
     repo_git_checkout := repo_git_checkout ci_data;
     repo_git_am := repo_git_am ci_data;
     repo_stderr := repo_stderr ci_data;
     repo_git_push := repo_git_push ci_data;
     gh_pr_exist_title := pr_exists;
     gh_create_pr := gh_create_pr ci_data;
     gh_get_prs := fun _ => prs |}.

Definition maintainers_only_cfg : Config :=
  {| branch := "master"; dry_run := false; disable_pr := false;
     temp_root := "/tmp/x"; space := "user"; space_details := [];
     email := {| only_maintainers := Some true;
                 maintainers := ["m@example.org"];
                 default_to := "list@example.org" |} |}.

(** What the loop of [run_series] leaves of a series: a missing name is
    replaced by the name of the first patch. *)
Definition fill_name (series : Series) : Series :=
  match series_name series, series_patches series with
  | None, patch_1 :: _ => set_name series (patch_name patch_1)
  | _, _ => series
  end.

(** The decision of the hosting client on the tag of a series. *)
Definition has_pull_request (ci_data : CiContext) (series : Series) : bool :=
  gh_pr_exist_title ci_data ("PW_SID:" ++ Py.str_of_int (series_id series)).

Definition is_log_error (ev : event) : bool :=
  match ev with
  | EvLogError _ => true
  | _ => false
  end.

(** [decimal s]: [s] is a non-empty string of decimal digits, the strings
    on which [Py.int_of_digits] is [int]. *)
Definition decimal (s : string) : bool :=
  negb (String.eqb s "") && forallb Py.is_digit (list_ascii_of_string s).

(** A diff that changes [Makefile], creates [new.c] and then changes it. *)
Definition diff_with_new_file : string :=
  "--- a/Makefile" ++ line_feed ++ "+++ b/Makefile" ++ line_feed ++
  "--- /dev/null" ++ line_feed ++ "+++ b/new.c" ++ line_feed ++
  "--- a/new.c" ++ line_feed ++ "+++ b/new.c".

(** A series of one patch. *)
Definition series_of_one : Series :=
  {| series_id := 7; series_name := Some "BlueZ: feature";
     series_patches := [Fixture.patch 1];
     submitter_email := "dev@example.org" |}.

(** A context whose tracker holds, for every patch, a diff with the
    marker [--- a//etc/passwd], and whose file system has [/etc/passwd]
    and nothing else. *)
Definition ci_outside_root : CiContext :=
  {| config := Fixture.cfg false false;
     src_dir := "/no/such/tree";
     os_path_exists := fun path => String.eqb path "/etc/passwd";
     pw_get_series_by_state := fun _ => [];
     pw_get_patch := fun _ =>
       {| pd_check := "pending";
          pd_diff := Some ("--- a//etc/passwd" ++ line_feed ++ "+++ b//etc/passwd");
          pd_content := "" |};
     pw_get_patch_mbox := fun _ => "";
     repo_git_checkout := fun _ _ => 0;
     repo_git_am := fun _ => 0;
     repo_stderr := fun _ => "";
     repo_git_push := fun _ => 0;
     gh_pr_exist_title := fun _ => false;
     gh_create_pr := fun _ _ _ _ => true;
     gh_get_prs := fun _ => [] |}.

(** * Properties *)

(** ** The monad *)

Lemma bind_ret_l {A B} (a : A) (f : A -> M B) : bind (ret a) f = f a.
Proof. unfold bind, ret. destruct (f a); reflexivity. Qed.

Lemma bind_val {A B} (a : A) (t : trace) (f : A -> M B) :
  bind (Val a, t) f = (result_of (f a), (t ++ trace_of (f a))%list).
Proof. unfold bind, result_of, trace_of. destruct (f a); reflexivity. Qed.

Lemma bind_exc {A B} (e : exn) (t : trace) (f : A -> M B) :
  bind (Exc e, t) f = (Exc e, t).
Proof. reflexivity. Qed.

Lemma bind_emit {B} (ev : event) (k : M B) :
  (emit ev ;;; k) = (result_of k, ev :: trace_of k).
Proof. unfold emit. rewrite bind_val. reflexivity. Qed.

(** A collaborator call: one event, then the answer. *)
Lemma bind_call {A B} (ev : event) (a : A) (f : A -> M B) :
  bind (emit ev ;;; ret a) f = (result_of (f a), ev :: trace_of (f a)).
Proof.
  unfold emit, ret, bind, result_of, trace_of. destruct (f a); reflexivity.
Qed.

Lemma M_eta {A} (m : M A) : m = (result_of m, trace_of m).
Proof. destruct m; reflexivity. Qed.

Lemma bind_call_after {A B} (ev : event) (a : A) (f : A -> M B) :
  bind (emit ev ;;; ret a) f = after_events [ev] (f a).
Proof. apply bind_call. Qed.

Lemma bind_emit_after {B} (ev : event) (k : M B) :
  (emit ev ;;; k) = after_events [ev] k.
Proof. apply bind_emit. Qed.

Lemma bind_val_after {A B} (a : A) (t : trace) (f : A -> M B) :
  bind (Val a, t) f = after_events t (f a).
Proof. apply bind_val. Qed.

Lemma bind_if_emit {B} (c : bool) (ev : event) (k : M B) :
  ((if c then emit ev else ret tt) ;;; k) =
  after_events (if c then [ev] else []) k.
Proof.
  destruct c; [apply bind_emit|]. rewrite bind_ret_l. apply M_eta.
Qed.

Lemma after_events_pair {A} (t t' : trace) (r : outcome A) :
  after_events t (r, t') = (r, (t ++ t')%list).
Proof. reflexivity. Qed.

(** ** DiffAnalyzer *)

Lemma file_loop_filter (lines acc : list string) :
  file_loop lines acc = (acc ++ map trim_prefix (filter kept_marker lines))%list.
Proof.
  revert acc. induction lines as [|line rest IH]; intros acc; simpl.
  - now rewrite app_nil_r.
  - unfold kept_marker. destruct (is_marker line); simpl; [|apply IH].
    destruct (has_dev_null line); simpl; [apply IH|].
    rewrite IH, <- app_assoc. reflexivity.
Qed.

Lemma new_file_body_cases (line : string) (iter_lines file_list : list string) :
  new_file_body line iter_lines file_list =
  ret (if creation_marker line then
         match iter_lines with
         | [] => ([], file_list)
         | line2 :: rest => (rest, (file_list ++ [trim_prefix line2])%list)
         end
       else (iter_lines, file_list)).
Proof.
  unfold new_file_body, creation_marker.
  destruct (is_marker line), (has_dev_null line), iter_lines; reflexivity.
Qed.

Lemma new_file_loop_created (bound : nat) :
  forall iter_lines file_list,
    (List.length iter_lines <= bound)%nat ->
    new_file_loop bound iter_lines file_list =
    ret (file_list ++ created iter_lines)%list.
Proof.
  induction bound as [|bound IH]; intros [|line rest] fl Hlen; simpl in *;
    try (now rewrite app_nil_r); try lia.
  rewrite new_file_body_cases, bind_ret_l.
  destruct (creation_marker line).
  - destruct rest as [|line2 rest']; simpl in *.
    + destruct bound; simpl; now rewrite app_nil_r.
    + rewrite IH by lia. rewrite <- app_assoc. reflexivity.
  - simpl. apply IH. lia.
Qed.

(** Scanning a concatenation: when the scan of the first part is not
    left open, the second part is scanned on its own. *)
Lemma created_app_aux (n : nat) :
  forall pre post, (List.length pre <= n)%nat -> ends_open pre = false ->
    created (pre ++ post) = (created pre ++ created post)%list.
Proof.
  induction n as [|n IH]; intros [|line rest] post Hlen Hopen; simpl in *;
    try reflexivity; try lia.
  destruct (creation_marker line).
  - destruct rest as [|line2 rest']; [discriminate|]. simpl in *.
    f_equal. apply IH; [lia|assumption].
  - apply IH; [lia|assumption].
Qed.

Lemma created_app (pre post : list string) :
  ends_open pre = false ->
  created (pre ++ post) = (created pre ++ created post)%list.
Proof. apply (created_app_aux (List.length pre)). lia. Qed.

Lemma prefix_empty (s : string) : String.prefix "" s = true.
Proof. destruct s; reflexivity. Qed.

Lemma find_first_slash (pre post : string) (i : Z) :
  no_slash pre = true ->
  Py.find_from (pre ++ "/" ++ post) "/" i = i + Z.of_nat (String.length pre).
Proof.
  revert i. induction pre as [|c pre IH]; intros i Hno.
  - simpl. rewrite prefix_empty. lia.
  - simpl in Hno. apply andb_prop in Hno as [Hc Hpre].
    cbn [append Py.find_from String.prefix String.length].
    destruct (ascii_dec "/"%char c) as [<-|Hne]; [discriminate|].
    rewrite IH by assumption. lia.
Qed.

(** The text after the first [/] of a line. *)
Lemma trim_prefix_first_slash (pre post : string) :
  no_slash pre = true -> trim_prefix (pre ++ "/" ++ post) = post.
Proof.
  intros Hno. unfold trim_prefix, Py.find, Py.slice_from.
  rewrite find_first_slash by assumption.
  destruct (Z.ltb_spec (0 + Z.of_nat (String.length pre) + 1) 0); [lia|].
  replace (Z.to_nat (0 + Z.of_nat (String.length pre) + 1))
    with (S (String.length pre)) by lia.
  clear. induction pre as [|c pre IH]; simpl; auto.
Qed.

Lemma prefix_app (s rest : string) : String.prefix s (s ++ rest) = true.
Proof.
  induction s as [|c s IH]; simpl.
  - apply prefix_empty.
  - destruct (ascii_dec c c); [assumption|congruence].
Qed.

Lemma find_from_substring (a sub b : string) (i : Z) :
  0 <= i -> 0 <= Py.find_from (a ++ sub ++ b) sub i.
Proof.
  revert i. induction a as [|c a IH]; intros i Hi.
  - cbn [append]. destruct (sub ++ b) eqn:E.
    + destruct sub; [simpl; lia|discriminate E].
    + cbn [Py.find_from]. rewrite <- E, prefix_app. assumption.
  - cbn [append Py.find_from].
    destruct (String.prefix sub (String c (a ++ sub ++ b))); [assumption|].
    apply IH. lia.
Qed.

(** A line with the characters [dev/null] anywhere in it passes the
    sentinel test of both functions. *)
Lemma has_dev_null_substring (a b : string) :
  has_dev_null (a ++ "dev/null" ++ b) = true.
Proof.
  unfold has_dev_null, Py.find. apply Z.leb_le.
  apply find_from_substring. lia.
Qed.

Lemma file_loop_app (pre post acc : list string) :
  file_loop (pre ++ post) acc = (file_loop pre acc ++ file_loop post [])%list.
Proof.
  rewrite !file_loop_filter, filter_app, map_app, app_assoc. reflexivity.
Qed.

Lemma patch_get_new_file_list_created (text : string) :
  patch_get_new_file_list (Some text) = ret (created (Py.split_nl text)).
Proof.
  unfold patch_get_new_file_list.
  rewrite new_file_loop_created by lia. reflexivity.
Qed.

Lemma entry_of_trim_prefix (line : string) : entry_of line (trim_prefix line).
Proof.
  intros prefix path Hno ->.
  change ("--- " ++ prefix ++ "/" ++ path)
    with (String "-" (String "-" (String "-" (String " " (prefix ++ "/" ++ path))))).
  change (String "-" (String "-" (String "-" (String " " (prefix ++ "/" ++ path)))))
    with (("--- " ++ prefix) ++ "/" ++ path).
  apply trim_prefix_first_slash. exact Hno.
Qed.

Example new_file_is_listed_apart :
  patch_get_new_file_list
    (Some ("--- /dev/null" ++ Fixture.nl ++ "+++ b/newfile.c")) =
    ret ["newfile.c"] /\
  patch_get_file_list
    (Some ("--- /dev/null" ++ Fixture.nl ++ "+++ b/newfile.c")) = ret [].
Proof. split; reflexivity. Qed.

(** C4, as stated, fails: a marker whose path merely contains [dev/null]
    is not the sentinel, yet [patch_get_file_list] drops it. *)
Lemma counts_non_null_markers_counterexample :
  ~ counts_non_null_markers "--- a/dev/null_helper.c".
Proof.
  intros H. specialize (H [] eq_refl). discriminate H.
Qed.

(** C4, amended: for every diff text, [patch_get_file_list] returns, in
    order, exactly one entry for each line that starts with [--- ] and
    does not contain the substring [dev/null]; for such a line of the
    form [--- <prefix>/<path>] the entry is [<path>]. *)
Theorem fileList_one_entry_per_kept_marker (text : string) :
  exists file_list,
    patch_get_file_list (Some text) = ret file_list /\
    List.length file_list =
      List.length (filter kept_marker (Py.split_nl text)) /\
    Forall2 entry_of (filter kept_marker (Py.split_nl text)) file_list.
Proof.
  exists (map trim_prefix (filter kept_marker (Py.split_nl text))).
  split; [|split].
  - unfold patch_get_file_list. now rewrite file_loop_filter.
  - apply length_map.
  - induction (filter kept_marker (Py.split_nl text)) as [|line rest IH]; simpl.
    + constructor.
    + constructor; [apply entry_of_trim_prefix|exact IH].
Qed.

(** C9, as stated, fails for [patch_get_file_list]: it reads no
    following line, and a marker on the last line yields its entry like
    any other marker; it is not skipped. *)
Lemma last_line_marker_skipped_counterexample :
  ~ last_line_marker_skipped "--- a/foo.c".
Proof.
  intros H. specialize (H [] "--- a/foo.c" eq_refl eq_refl).
  discriminate H.
Qed.

(** C9, amended: neither extraction function raises, on any input.  A
    null diff gives the empty list and one logged warning.  In
    [patch_get_new_file_list] a last line that the scan reaches (it is not
    read as the successor of an earlier creation marker) adds nothing and
    raises nothing, also when it is a creation marker and [next] finds no
    line: the result is that of the lines before it.
    [patch_get_file_list] treats the last line like any other: a marker
    that contains [dev/null] is left out, any other marker yields its
    entry. *)
Theorem extraction_never_raises (patch : option string) :
  (exists file_list, result_of (patch_get_file_list patch) = Val file_list) /\
  (exists file_list, result_of (patch_get_new_file_list patch) = Val file_list) /\
  patch_get_file_list None =
    (Val [], [EvLogError "WARNING: No file found in patch"]) /\
  patch_get_new_file_list None =
    (Val [], [EvLogError "WARNING: No file found in patch"]) /\
  (forall text pre last,
      Py.split_nl text = (pre ++ [last])%list ->
      ends_open pre = false ->
      patch_get_new_file_list (Some text) =
        new_file_loop (List.length pre) pre []) /\
  (forall text pre last,
      Py.split_nl text = (pre ++ [last])%list ->
      patch_get_file_list (Some text) =
        ret (file_loop pre [] ++
             (if kept_marker last then [trim_prefix last] else []))%list).
Proof.
  split; [|split; [|split; [|split; [|split]]]]; try reflexivity.
  - destruct patch; simpl; eauto.
  - destruct patch as [text|]; [|simpl; eauto].
    rewrite patch_get_new_file_list_created. simpl; eauto.
  - intros text pre last Hlines Hopen.
    rewrite patch_get_new_file_list_created, Hlines.
    rewrite new_file_loop_created by lia.
    rewrite created_app by assumption.
    cbn [created]. destruct (creation_marker last); now rewrite app_nil_r.
  - intros text pre last Hlines.
    unfold patch_get_file_list. rewrite Hlines, file_loop_app.
    rewrite (file_loop_filter [last]). cbn [filter app].
    destruct (kept_marker last); reflexivity.
Qed.

Lemma extraction_never_raises_witness :
  patch_get_new_file_list (Some ("--- a/x.c" ++ Fixture.nl ++ "--- /dev/null")) =
    new_file_loop 1 ["--- a/x.c"] [] /\
  patch_get_file_list (Some ("--- a/x.c" ++ Fixture.nl ++ "--- /dev/null")) =
    ret ["x.c"].
Proof.
  split.
  - apply (proj1 (proj2 (proj2 (proj2 (proj2 (extraction_never_raises None)))))
             ("--- a/x.c" ++ Fixture.nl ++ "--- /dev/null") ["--- a/x.c"]
             "--- /dev/null");
      reflexivity.
  - apply (proj2 (proj2 (proj2 (proj2 (proj2 (extraction_never_raises None)))))
             ("--- a/x.c" ++ Fixture.nl ++ "--- /dev/null") ["--- a/x.c"]
             "--- /dev/null");
      reflexivity.
Defined.

(** C10, as stated, fails: a marker read as the successor of the marker
    before it is not itself taken as a file creation. *)
Lemma emits_every_successor_counterexample :
  ~ emits_every_successor
      ("--- /dev/null" ++ Fixture.nl ++ "--- /dev/null" ++ Fixture.nl ++ "+++ b/new.c").
Proof.
  intros H.
  destruct (H ["--- /dev/null"] "--- /dev/null" "+++ b/new.c" []
              eq_refl eq_refl) as (file_list & Hrun & Hin).
  vm_compute in Hrun. injection Hrun as <-.
  vm_compute in Hin. destruct Hin as [Hin|[]]. discriminate Hin.
Qed.

(** C10, amended: the sentinel test is a substring match.  A line that
    starts with [--- ] and has the characters [dev/null] anywhere in it
    adds nothing to the list of [patch_get_file_list]; and, unless the
    line is itself read as the successor of an earlier such marker,
    [patch_get_new_file_list] emits the trimmed text of the line that
    follows it, between the entries of the lines before and after. *)
Theorem dev_null_test_is_substring_match
    (text before after : string) (pre post : list string) (line2 : string) :
  is_marker (before ++ "dev/null" ++ after) = true ->
  Py.split_nl text =
    (pre ++ (before ++ "dev/null" ++ after)%string :: line2 :: post)%list ->
  patch_get_file_list (Some text) =
    ret (file_loop pre [] ++ file_loop (line2 :: post) [])%list /\
  (ends_open pre = false ->
   exists entries_pre entries_post,
     new_file_loop (List.length pre) pre [] = ret entries_pre /\
     new_file_loop (List.length post) post [] = ret entries_post /\
     patch_get_new_file_list (Some text) =
       ret (entries_pre ++ trim_prefix line2 :: entries_post)%list).
Proof.
  intros Hmarker Hlines.
  assert (Hcm : creation_marker (before ++ "dev/null" ++ after) = true).
  { unfold creation_marker. now rewrite Hmarker, has_dev_null_substring. }
  split.
  - unfold patch_get_file_list. rewrite Hlines, file_loop_app.
    cbn [file_loop]. rewrite Hmarker, has_dev_null_substring. reflexivity.
  - intros Hopen. exists (created pre), (created post).
    rewrite !new_file_loop_created by lia.
    rewrite patch_get_new_file_list_created, Hlines.
    rewrite created_app by assumption.
    cbn [created]. rewrite Hcm. repeat split; reflexivity.
Qed.

Lemma dev_null_test_is_substring_match_witness :
  patch_get_file_list
    (Some ("--- a/" ++ "dev/null" ++ "_helper.c" ++ Fixture.nl ++ "+++ b/dev/null_helper.c")) =
    ret [] /\
  patch_get_new_file_list
    (Some ("--- a/" ++ "dev/null" ++ "_helper.c" ++ Fixture.nl ++ "+++ b/dev/null_helper.c")) =
    ret ["dev/null_helper.c"].
Proof.
  destruct (dev_null_test_is_substring_match
              ("--- a/" ++ "dev/null" ++ "_helper.c" ++ Fixture.nl ++ "+++ b/dev/null_helper.c")
              "--- a/" "_helper.c" [] [] "+++ b/dev/null_helper.c"
              eq_refl eq_refl) as [Hfiles Hnew].
  split; [exact Hfiles|].
  destruct (Hnew eq_refl) as (entries_pre & entries_post & Hpre & Hpost & Hrun).
  injection Hpre as <-. injection Hpost as <-. exact Hrun.
Defined.

(** ** PRReconciler *)

Lemma tag_at_nonempty (s d : string) : tag_at s = Some d -> d <> "".
Proof.
  unfold tag_at. destruct (String.prefix "[PW_SID:" s); [|discriminate].
  destruct (take_digits (Py.drop 8 s)) as [digits rest].
  destruct (String.eqb_spec digits ""); simpl; [discriminate|].
  destruct (String.prefix "]" rest); [|discriminate].
  now intros [= <-].
Qed.

Lemma pr_get_sid_nonempty (title d : string) :
  pr_get_sid title = Some d -> d <> "".
Proof.
  induction title as [|c title IH]; cbn [pr_get_sid].
  - discriminate.
  - destruct (tag_at (String c title)) eqn:E.
    + intros [= <-]. eapply tag_at_nonempty; eassumption.
    + exact IH.
Qed.

Lemma sid_in_series_list_known (sid : string) (series_list : list Series) :
  match sid_in_series_list sid series_list with
  | Some _ => true
  | None => false
  end =
  known_id series_list (Py.int_of_digits sid).
Proof.
  unfold known_id. induction series_list as [|series rest IH]; simpl; auto.
  destruct (Py.int_of_digits sid =? series_id series); auto.
Qed.

Lemma cleanup_loop_closes_stale (new_series : list Series) (prs : list PullRequest) :
  cleanup_loop new_series prs =
  (Val tt, map (fun pr => EvClosePr (pr_number pr)) (filter (stale new_series) prs)).
Proof.
  induction prs as [|pr rest IH]; [reflexivity|].
  cbn [cleanup_loop filter]. unfold stale at 1.
  destruct (pr_get_sid (pr_title pr)) as [sid|] eqn:Hsid; [|exact IH].
  destruct (String.eqb_spec sid "") as [->|_].
  - now apply pr_get_sid_nonempty in Hsid.
  - rewrite <- sid_in_series_list_known.
    destruct (sid_in_series_list sid new_series); cbn [negb]; [exact IH|].
    unfold close_pr. rewrite bind_emit, IH. reflexivity.
Qed.

(** C6: after the forced refresh of the open pull requests,
    [cleanup_pullrequest] closes, in order, exactly the pull requests
    whose title yields a PW_SID tag with an id that no candidate series
    has; a pull request with a candidate's id, and one whose title yields
    no tag, gets no call at all. *)
Theorem reconcile_closes_exactly_stale (ci_data : CiContext)
    (new_series : list Series) :
  cleanup_pullrequest ci_data new_series =
  (Val tt,
   EvGetPrs true ::
   map (fun pr => EvClosePr (pr_number pr))
       (filter (stale new_series) (gh_get_prs ci_data true))).
Proof.
  unfold cleanup_pullrequest, get_prs.
  rewrite bind_call, cleanup_loop_closes_stale. reflexivity.
Qed.

Example reconcile_spec_example :
  cleanup_pullrequest (Fixture.ci false false [] [] Fixture.open_prs)
    [ {| series_id := 10; series_name := Some "foo"; series_patches := [];
         submitter_email := "" |} ] =
  (Val tt, [EvGetPrs true; EvClosePr 2]).
Proof. reflexivity. Qed.

(** ** RepoSpaceFilter *)

Lemma search_any_matches (re_search_ignorecase : string -> string -> bool)
    (patterns : list string) (name : string) :
  search_any re_search_ignorecase patterns (Some name) =
  ret (matches_any re_search_ignorecase patterns name).
Proof.
  induction patterns as [|str rest IH]; [reflexivity|].
  cbn [search_any re_search matches_any existsb]. rewrite bind_ret_l.
  destruct (re_search_ignorecase str name); [reflexivity|exact IH].
Qed.

(** C7: the exclude patterns are tried before the include patterns.  A
    name that matches an exclude pattern is rejected, whatever the include
    patterns say; otherwise a name that matches an include pattern is
    accepted at once: no patch is fetched and no path is tested, so the
    answer does not depend on the source tree. *)
Theorem exclude_precedes_include
    (re_search_ignorecase : string -> string -> bool) (ci_data : CiContext)
    (space_details : SpaceDetails) (series : Series) (src_dir name : string) :
  series_name series = Some name ->
  (matches_any re_search_ignorecase (sd_exclude space_details) name = true ->
   filter_repo_space re_search_ignorecase ci_data space_details series src_dir =
     (Val false, [])) /\
  (matches_any re_search_ignorecase (sd_exclude space_details) name = false ->
   matches_any re_search_ignorecase (sd_include space_details) name = true ->
   filter_repo_space re_search_ignorecase ci_data space_details series src_dir =
     (Val true, [])).
Proof.
  intros Hname. unfold filter_repo_space. rewrite Hname.
  split.
  - intros Hex. rewrite search_any_matches, bind_ret_l, Hex. reflexivity.
  - intros Hex Hinc.
    rewrite search_any_matches, bind_ret_l, Hex.
    rewrite search_any_matches, bind_ret_l, Hinc. reflexivity.
Qed.

Example rfc_series_is_rejected :
  filter_repo_space Fixture.literal_search (Fixture.ci false false [] [] [])
    {| sd_include := ["^BlueZ"]; sd_exclude := ["^RFC"] |}
    (set_name Fixture.series3 "RFC: BlueZ feature") "/src" = (Val false, []).
Proof. reflexivity. Qed.

Lemma exclude_precedes_include_witness :
  filter_repo_space Fixture.literal_search (Fixture.ci false false [] [] [])
    {| sd_include := ["^BlueZ"]; sd_exclude := ["RFC"] |}
    (set_name Fixture.series3 "BlueZ: RFC feature") "/src" = (Val false, []) /\
  filter_repo_space Fixture.literal_search (Fixture.ci false false [] [] [])
    {| sd_include := ["^BlueZ"]; sd_exclude := ["^RFC"] |}
    Fixture.series3 "/no/such/dir" = (Val true, []).
Proof.
  split.
  - apply (proj1 (exclude_precedes_include Fixture.literal_search
                    (Fixture.ci false false [] [] [])
                    {| sd_include := ["^BlueZ"]; sd_exclude := ["RFC"] |}
                    (set_name Fixture.series3 "BlueZ: RFC feature") "/src"
                    "BlueZ: RFC feature" eq_refl)).
    reflexivity.
  - apply (proj2 (exclude_precedes_include Fixture.literal_search
                    (Fixture.ci false false [] [] [])
                    {| sd_include := ["^BlueZ"]; sd_exclude := ["^RFC"] |}
                    Fixture.series3 "/no/such/dir" "BlueZ: feature" eq_refl));
      reflexivity.
Defined.

Lemma patch_get_file_list_val (patch : option string) :
  patch_get_file_list patch =
  (Val (value_or [] (patch_get_file_list patch)),
   trace_of (patch_get_file_list patch)).
Proof. destruct patch; reflexivity. Qed.

Lemma patch_get_new_file_list_val (patch : option string) :
  patch_get_new_file_list patch =
  (Val (value_or [] (patch_get_new_file_list patch)),
   trace_of (patch_get_new_file_list patch)).
Proof.
  destruct patch as [text|]; [|reflexivity].
  rewrite patch_get_new_file_list_created. reflexivity.
Qed.

Lemma gather_file_lists_result (ci_data : CiContext) (patches : list Patch) :
  forall file_list new_file_list,
    result_of (gather_file_lists ci_data true patches file_list new_file_list) =
    Val ((file_list ++
            flat_map (fun patch =>
                        value_or [] (patch_get_file_list (diff_of ci_data patch)))
                     patches)%list,
         (new_file_list ++
            flat_map (fun patch =>
                        value_or [] (patch_get_new_file_list (diff_of ci_data patch)))
                     patches)%list).
Proof.
  induction patches as [|patch rest IH]; intros fl nfl.
  - simpl. now rewrite !app_nil_r.
  - cbn [gather_file_lists flat_map]. unfold get_patch.
    rewrite bind_call. cbn [result_of fst].
    fold (diff_of ci_data patch).
    rewrite (patch_get_file_list_val (diff_of ci_data patch)), bind_val.
    cbn [result_of fst].
    rewrite (patch_get_new_file_list_val (diff_of ci_data patch)), bind_val.
    cbn [result_of fst].
    fold (result_of (gather_file_lists ci_data true rest
            (fl ++ value_or [] (patch_get_file_list (diff_of ci_data patch)))%list
            (nfl ++ value_or [] (patch_get_new_file_list (diff_of ci_data patch)))%list)).
    rewrite IH, !app_assoc. reflexivity.
Qed.

Lemma filter_nothing_new (file_list : list string) :
  filter (fun filename => negb (Py.mem filename [])) file_list = file_list.
Proof.
  induction file_list as [|f rest IH]; [reflexivity|].
  cbn [filter]. change (Py.mem f []) with false. cbn [negb]. now rewrite IH.
Qed.

Lemma series_get_file_list_result (ci_data : CiContext) (series : Series) :
  result_of (series_get_file_list ci_data series true) =
  Val (files_excluding_new ci_data series).
Proof.
  unfold series_get_file_list.
  rewrite (M_eta (gather_file_lists ci_data true (series_patches series) [] [])).
  rewrite gather_file_lists_result, bind_val. cbn [app negb orb].
  fold (series_files ci_data series) (series_new_files ci_data series).
  unfold files_excluding_new.
  destruct (series_new_files ci_data series) as [|f news] eqn:E; cbn.
  - now rewrite filter_nothing_new.
  - reflexivity.
Qed.

Lemma files_exist_result (ci_data : CiContext) (src_dir : string)
    (file_list : list string) :
  result_of (files_exist ci_data src_dir file_list) =
  Val (forallb (present_under ci_data src_dir) file_list).
Proof.
  induction file_list as [|f rest IH]; [reflexivity|].
  cbn [files_exist forallb]. unfold path_exists, present_under at 1.
  rewrite bind_call. cbn [result_of fst].
  destruct (os_path_exists ci_data (Py.path_join src_dir f)); [exact IH|reflexivity].
Qed.

Lemma files_exist_first_missing (ci_data : CiContext) (src_dir : string)
    (present : list string) (missing : string) (rest : list string) :
  forallb (present_under ci_data src_dir) present = true ->
  present_under ci_data src_dir missing = false ->
  trace_of (files_exist ci_data src_dir (present ++ missing :: rest)) =
  (map (fun f => EvPathExists (Py.path_join src_dir f)) (present ++ [missing])
   ++ [EvLogError ("File not found: " ++ missing)])%list.
Proof.
  intros Hpresent Hmissing.
  induction present as [|f present IH]; cbn [app files_exist map].
  - unfold path_exists. rewrite bind_call. unfold present_under in Hmissing.
    rewrite Hmissing. reflexivity.
  - cbn [forallb] in Hpresent. apply andb_prop in Hpresent as [Hf Hpresent].
    unfold path_exists. rewrite bind_call. unfold present_under in Hf.
    rewrite Hf. cbn [negb trace_of snd]. f_equal. apply IH. exact Hpresent.
Qed.

(** The decision on file evidence, as the code takes it.  When neither
    list of patterns matches the name of the series, the decision rests on
    the files of the series' patches that no patch of the series creates.
    With none, the series is rejected; otherwise it is accepted exactly
    when [os.path.exists(os.path.join(src_dir, filename))] holds for every
    one of them.  The test stops at the first missing path, which is
    logged. *)
Lemma file_evidence_decides
    (re_search_ignorecase : string -> string -> bool) (ci_data : CiContext)
    (space_details : SpaceDetails) (series : Series) (src_dir name : string) :
  series_name series = Some name ->
  matches_any re_search_ignorecase (sd_exclude space_details) name = false ->
  matches_any re_search_ignorecase (sd_include space_details) name = false ->
  result_of (series_get_file_list ci_data series true) =
    Val (files_excluding_new ci_data series) /\
  result_of (filter_repo_space re_search_ignorecase ci_data space_details
               series src_dir) =
    Val (negb (List.length (files_excluding_new ci_data series) =? 0)%nat &&
         forallb (present_under ci_data src_dir)
                 (files_excluding_new ci_data series)) /\
  (forall present missing rest,
      files_excluding_new ci_data series = (present ++ missing :: rest)%list ->
      forallb (present_under ci_data src_dir) present = true ->
      present_under ci_data src_dir missing = false ->
      trace_of (filter_repo_space re_search_ignorecase ci_data space_details
                  series src_dir) =
      (trace_of (series_get_file_list ci_data series true)
       ++ map (fun f => EvPathExists (Py.path_join src_dir f)) (present ++ [missing])
       ++ [EvLogError ("File not found: " ++ missing)])%list).
Proof.
  intros Hname Hex Hinc.
  split; [apply series_get_file_list_result|].
  unfold filter_repo_space. rewrite Hname.
  rewrite search_any_matches, bind_ret_l, Hex.
  rewrite search_any_matches, bind_ret_l, Hinc.
  rewrite (M_eta (series_get_file_list ci_data series true)).
  rewrite series_get_file_list_result, bind_val.
  cbn [result_of trace_of fst snd].
  split.
  - destruct (files_excluding_new ci_data series) as [|f files] eqn:E.
    + reflexivity.
    + change (List.length (f :: files) =? 0)%nat with false. cbn [negb andb].
      apply files_exist_result.
  - intros present missing rest Hsplit Hpresent Hmissing.
    rewrite Hsplit. f_equal.
    replace (List.length (present ++ missing :: rest) =? 0)%nat with false
      by (destruct present; reflexivity).
    apply files_exist_first_missing; assumption.
Qed.

Lemma file_evidence_decides_witness :
  files_excluding_new (ci_with_diff (Some diff_with_new_file)) Fixture.series3 =
    ["Makefile"; "Makefile"; "Makefile"] /\
  result_of (filter_repo_space Fixture.literal_search
               (ci_with_diff (Some diff_with_new_file))
               {| sd_include := ["^kernel"]; sd_exclude := ["^RFC"] |}
               Fixture.series3 "/src") = Val true /\
  result_of (filter_repo_space Fixture.literal_search
               (ci_with_diff (Some diff_with_new_file))
               {| sd_include := ["^kernel"]; sd_exclude := ["^RFC"] |}
               Fixture.series3 "/elsewhere") = Val false.
Proof.
  split; [reflexivity|split].
  - exact (proj1 (proj2 (file_evidence_decides Fixture.literal_search
                    (ci_with_diff (Some diff_with_new_file))
                    {| sd_include := ["^kernel"]; sd_exclude := ["^RFC"] |}
                    Fixture.series3 "/src" "BlueZ: feature"
                    eq_refl eq_refl eq_refl))).
  - exact (proj1 (proj2 (file_evidence_decides Fixture.literal_search
                    (ci_with_diff (Some diff_with_new_file))
                    {| sd_include := ["^kernel"]; sd_exclude := ["^RFC"] |}
                    Fixture.series3 "/elsewhere" "BlueZ: feature"
                    eq_refl eq_refl eq_refl))).
Defined.

Lemma path_join_absolute (src_dir filename : string) :
  String.prefix "/" filename = true -> Py.path_join src_dir filename = filename.
Proof. intros H. unfold Py.path_join. now rewrite H. Qed.

(** C8: the code breaks the claim on a listed path that starts with [/].
    The marker [--- a//etc/passwd] gives the entry [/etc/passwd];
    [os.path.join] drops the source-tree root in front of it, and the
    series is accepted on the existence of [/etc/passwd], the only path
    that exists, which is not under the root [/no/such/tree]. *)
Theorem absolute_entry_is_tested_outside_the_root :
  matches_any Fixture.literal_search ["^RFC"] "BlueZ: feature" = false /\
  matches_any Fixture.literal_search ["^kernel"] "BlueZ: feature" = false /\
  files_excluding_new ci_outside_root series_of_one = ["/etc/passwd"] /\
  os_path_exists ci_outside_root = (fun path => String.eqb path "/etc/passwd") /\
  String.prefix "/no/such/tree" "/etc/passwd" = false /\
  filter_repo_space Fixture.literal_search ci_outside_root
    {| sd_include := ["^kernel"]; sd_exclude := ["^RFC"] |}
    series_of_one "/no/such/tree" =
  (Val true,
   [EvGetPatch 1; EvPathExists "/etc/passwd";
    EvPrint "Files exist in the source tree."]).
Proof. repeat split. Qed.

(** ** SeriesApplier *)

Lemma apply_patches_step (ci_data : CiContext) (series_dir : string)
    (already_checked : bool) (patch : Patch) (rest : list Patch) :
  apply_patches ci_data series_dir already_checked (patch :: rest) =
  if applies ci_data series_dir patch then
    (result_of (apply_patches ci_data series_dir already_checked rest),
     (applied_events ci_data series_dir
        (dry_run (config ci_data) || already_checked) patch ++
      trace_of (apply_patches ci_data series_dir already_checked rest))%list)
  else
    (Val (false, repo_stderr ci_data (patch_path_of series_dir patch)),
     failed_events ci_data series_dir
       (dry_run (config ci_data) || already_checked) patch).
Proof.
  cbn [apply_patches]. unfold get_patch_mbox, git_am, git_am_abort, post_check.
  rewrite bind_call. cbn [result_of trace_of fst snd].
  rewrite bind_emit. cbn [result_of trace_of fst snd].
  rewrite bind_call. cbn [result_of trace_of fst snd].
  unfold applies, applied_events, failed_events, attempt_events.
  fold (patch_path_of series_dir patch).
  destruct (Py.truthy (repo_git_am ci_data (patch_path_of series_dir patch)));
    cbn [negb].
  - rewrite bind_emit.
    destruct (dry_run (config ci_data) || already_checked); reflexivity.
  - destruct (dry_run (config ci_data) || already_checked).
    + rewrite bind_ret_l. reflexivity.
    + rewrite bind_emit. reflexivity.
Qed.

(** The loop over a series in which every patch applies. *)
Lemma apply_patches_all (ci_data : CiContext) (series_dir : string)
    (already_checked : bool) (patches : list Patch) :
  forallb (applies ci_data series_dir) patches = true ->
  apply_patches ci_data series_dir already_checked patches =
  (Val (true, ""),
   flat_map (applied_events ci_data series_dir
               (dry_run (config ci_data) || already_checked)) patches).
Proof.
  induction patches as [|patch rest IH]; [reflexivity|].
  cbn [forallb flat_map]. intros H. apply andb_prop in H as [Hp Hrest].
  rewrite apply_patches_step, Hp, (IH Hrest). reflexivity.
Qed.

(** The loop over a series whose first failing patch is [patch]: the
    patches after it are not looked at. *)
Lemma apply_patches_first_failure (ci_data : CiContext) (series_dir : string)
    (already_checked : bool) (before : list Patch) (patch : Patch)
    (after : list Patch) :
  forallb (applies ci_data series_dir) before = true ->
  applies ci_data series_dir patch = false ->
  apply_patches ci_data series_dir already_checked (before ++ patch :: after) =
  (Val (false, repo_stderr ci_data (patch_path_of series_dir patch)),
   (flat_map (applied_events ci_data series_dir
                (dry_run (config ci_data) || already_checked)) before ++
    failed_events ci_data series_dir
      (dry_run (config ci_data) || already_checked) patch)%list).
Proof.
  intros Hbefore Hpatch.
  induction before as [|q before IH]; cbn [app flat_map].
  - rewrite apply_patches_step, Hpatch. reflexivity.
  - cbn [forallb] in Hbefore. apply andb_prop in Hbefore as [Hq Hbefore].
    rewrite apply_patches_step, Hq, (IH Hbefore).
    cbn [result_of trace_of fst snd]. now rewrite app_assoc.
Qed.

Lemma send_email_events (ci_data : CiContext) (series : Series)
    (p0 : Patch) (rest : list Patch) (content : string) :
  series_patches series = p0 :: rest ->
  send_email ci_data series content =
  (Val tt,
   (EvSetReceivers (get_receivers (email (config ci_data)) (submitter_email series)) ::
    EvCompose ("RE: " ++ Py.str_of_opt (series_name series))
              (EMAIL_MESSAGE_format content)
              ([("In-Reply-To", patch_msgid p0); ("References", patch_msgid p0)] ++
               (if is_maintainers_only (email (config ci_data)) then []
                else [("Reply-To", default_to (email (config ci_data)))]))%list ::
    (if dry_run (config ci_data) then [] else [EvSend]))%list).
Proof.
  intros Hpatches. unfold send_email. rewrite Hpatches.
  cbn [first_item]. rewrite bind_ret_l, !bind_emit.
  destruct (is_maintainers_only (email (config ci_data)));
    destruct (dry_run (config ci_data)); reflexivity.
Qed.

Lemma checkouts_succeed_inv (ci_data : CiContext) (series : Series) :
  checkouts_succeed ci_data series = true ->
  Py.truthy (repo_git_checkout ci_data (branch (config ci_data)) false) = false /\
  Py.truthy (repo_git_checkout ci_data (Py.str_of_int (series_id series)) true) = false.
Proof.
  unfold checkouts_succeed. intros H. apply andb_prop in H as [H1 H2].
  split; [destruct (Py.truthy _); [discriminate|reflexivity]|].
  destruct (Py.truthy (repo_git_checkout ci_data (Py.str_of_int (series_id series)) true));
    [discriminate|reflexivity].
Qed.

Lemma series_check_patches_failure (ci_data : CiContext) (series : Series)
    (before : list Patch) (patch : Patch) (after : list Patch) :
  series_patches series = (before ++ patch :: after)%list ->
  checkouts_succeed ci_data series = true ->
  forallb (applies ci_data (series_dir_of ci_data series)) before = true ->
  applies ci_data (series_dir_of ci_data series) patch = false ->
  series_check_patches ci_data series =
  (Val false,
   (setup_events ci_data series ++
    flat_map (applied_events ci_data (series_dir_of ci_data series)
                (dry_run (config ci_data) || already_checked_of ci_data series))
             before ++
    failed_events ci_data (series_dir_of ci_data series)
      (dry_run (config ci_data) || already_checked_of ci_data series) patch ++
    (if dry_run (config ci_data) || already_checked_of ci_data series then []
     else trace_of (send_email ci_data series
                      (repo_stderr ci_data
                         (patch_path_of (series_dir_of ci_data series) patch)))))%list).
Proof.
  intros Hpatches Hco Hbefore Hpatch.
  apply checkouts_succeed_inv in Hco as [Hco1 Hco2].
  unfold series_check_patches. cbv zeta.
  fold (series_dir_of ci_data series).
  assert (Hhd : exists p0 rest, series_patches series = p0 :: rest).
  { rewrite Hpatches. destruct before; simpl; eauto. }
  destruct Hhd as (p0 & rest & Hhd).
  assert (Hac : already_checked_of ci_data series =
                negb (String.eqb (pd_check (pw_get_patch ci_data (patch_id p0))) "pending")).
  { unfold already_checked_of. now rewrite Hhd. }
  unfold path_exists, git_checkout, get_patch, log_error.
  replace (first_item (series_patches series)) with (ret p0)
    by (rewrite Hhd; reflexivity).
  rewrite bind_call_after, bind_if_emit.
  rewrite bind_call_after, Hco1, bind_call_after, Hco2.
  rewrite bind_ret_l, bind_call_after.
  rewrite <- Hac, Hpatches.
  rewrite apply_patches_first_failure by assumption.
  rewrite bind_val_after. cbn [negb].
  unfold after_events, setup_events. rewrite Hhd.
  cbn [result_of trace_of fst snd].
  destruct (dry_run (config ci_data) || already_checked_of ci_data series).
  - destruct (os_path_exists ci_data (series_dir_of ci_data series));
      cbn [negb app result_of trace_of ret fst snd];
      rewrite <- ?app_assoc; reflexivity.
  - rewrite (send_email_events ci_data series p0 rest _ Hhd).
    rewrite bind_val_after.
    destruct (os_path_exists ci_data (series_dir_of ci_data series));
      unfold after_events; cbn [negb app result_of trace_of ret fst snd];
      rewrite <- ?app_assoc, ?app_nil_r; reflexivity.
Qed.

Lemma series_check_patches_success (ci_data : CiContext) (series : Series)
    (p0 : Patch) (rest : list Patch) :
  series_patches series = p0 :: rest ->
  checkouts_succeed ci_data series = true ->
  forallb (applies ci_data (series_dir_of ci_data series)) (p0 :: rest) = true ->
  series_check_patches ci_data series =
  (Val (if disable_pr (config ci_data) then true
        else if Py.truthy (repo_git_push ci_data (Py.str_of_int (series_id series)))
             then false
             else gh_create_pr ci_data
                    ("[PW_SID:" ++ Py.str_of_int (series_id series) ++ "] " ++
                     Py.str_of_opt (series_name series))
                    (pd_content (pw_get_patch ci_data (patch_id p0)))
                    (branch (config ci_data))
                    (Py.str_of_int (series_id series))),
   (setup_events ci_data series ++
    flat_map (applied_events ci_data (series_dir_of ci_data series)
                (dry_run (config ci_data) || already_checked_of ci_data series))
             (p0 :: rest) ++
    (if disable_pr (config ci_data) then []
     else
       EvGitPush (Py.str_of_int (series_id series)) ::
       (if Py.truthy (repo_git_push ci_data (Py.str_of_int (series_id series)))
        then [EvLogError "Failed to push the source to Github"]
        else [EvGetPatch (patch_id p0);
              EvCreatePr
                ("[PW_SID:" ++ Py.str_of_int (series_id series) ++ "] " ++
                 Py.str_of_opt (series_name series))
                (pd_content (pw_get_patch ci_data (patch_id p0)))
                (branch (config ci_data))
                (Py.str_of_int (series_id series))])))%list).
Proof.
  intros Hhd Hco Hall.
  apply checkouts_succeed_inv in Hco as [Hco1 Hco2].
  unfold series_check_patches. cbv zeta.
  fold (series_dir_of ci_data series).
  assert (Hac : already_checked_of ci_data series =
                negb (String.eqb (pd_check (pw_get_patch ci_data (patch_id p0))) "pending")).
  { unfold already_checked_of. now rewrite Hhd. }
  unfold path_exists, git_checkout, get_patch, log_error, git_push, create_pr.
  replace (first_item (series_patches series)) with (ret p0)
    by (rewrite Hhd; reflexivity).
  rewrite bind_call_after, bind_if_emit.
  rewrite bind_call_after, Hco1, bind_call_after, Hco2.
  rewrite bind_ret_l, bind_call_after.
  rewrite <- Hac, Hhd.
  rewrite apply_patches_all by assumption.
  rewrite bind_val_after. cbn [negb].
  unfold setup_events. rewrite Hhd.
  destruct (disable_pr (config ci_data)).
  - destruct (os_path_exists ci_data (series_dir_of ci_data series));
      unfold after_events; cbn [negb app result_of trace_of ret fst snd];
      rewrite <- ?app_assoc, ?app_nil_r; reflexivity.
  - rewrite bind_call_after.
    destruct (Py.truthy (repo_git_push ci_data (Py.str_of_int (series_id series)))).
    + rewrite bind_emit_after.
      destruct (os_path_exists ci_data (series_dir_of ci_data series));
        unfold after_events; cbn [negb app result_of trace_of ret fst snd];
        rewrite <- ?app_assoc, ?app_nil_r; reflexivity.
    + rewrite bind_ret_l, bind_call_after, bind_call_after.
      destruct (gh_create_pr ci_data _ _ _ _);
      destruct (os_path_exists ci_data (series_dir_of ci_data series));
        unfold after_events; cbn [negb app result_of trace_of ret fst snd];
        rewrite <- ?app_assoc, ?app_nil_r; reflexivity.
Qed.

Lemma applied_events_quiet (ci_data : CiContext) (series_dir : string)
    (patches : list Patch) :
  flat_map (applied_events ci_data series_dir true) patches =
  flat_map (attempt_events ci_data series_dir) patches.
Proof.
  induction patches as [|q l IH]; [reflexivity|].
  cbn [flat_map]. rewrite IH. unfold applied_events. now rewrite app_nil_r.
Qed.

(** C5: in a series processed with reporting on (not dry-run, first patch
    still pending), whose first failing patch is [patch]: each patch before
    it is attempted and gets the check 1 under [pre-ci_am]; [patch] is
    attempted, [git am --abort] runs, and only then [patch] gets the check
    3 under [pre-ci_am]; no patch after it is attempted; the notification
    follows. *)
Theorem first_failure_stops_the_series (ci_data : CiContext) (series : Series)
    (before : list Patch) (patch : Patch) (after : list Patch) :
  dry_run (config ci_data) = false ->
  already_checked_of ci_data series = false ->
  checkouts_succeed ci_data series = true ->
  series_patches series = (before ++ patch :: after)%list ->
  forallb (applies ci_data (series_dir_of ci_data series)) before = true ->
  applies ci_data (series_dir_of ci_data series) patch = false ->
  series_check_patches ci_data series =
  (Val false,
   (setup_events ci_data series ++
    flat_map (fun q =>
                attempt_events ci_data (series_dir_of ci_data series) q ++
                [EvPostCheck (patch_id q) "pre-ci_am" 1 "Success"])
             before ++
    attempt_events ci_data (series_dir_of ci_data series) patch ++
    [EvGitAmAbort;
     EvPostCheck (patch_id patch) "pre-ci_am" 3
       (repo_stderr ci_data (patch_path_of (series_dir_of ci_data series) patch))] ++
    trace_of (send_email ci_data series
                (repo_stderr ci_data
                   (patch_path_of (series_dir_of ci_data series) patch))))%list).
Proof.
  intros Hdry Hac Hco Hpatches Hbefore Hpatch.
  rewrite (series_check_patches_failure ci_data series before patch after)
    by assumption.
  rewrite Hdry, Hac. reflexivity.
Qed.

Lemma first_failure_stops_the_series_witness :
  series_check_patches (Fixture.ci false false ["/tmp/x/7/2.patch"] [] [])
    Fixture.series3 =
  (Val false,
   [EvPathExists "/tmp/x/7"; EvMakedirs "/tmp/x/7";
    EvGitCheckout "master" false; EvGitCheckout "7" true; EvGetPatch 1;
    EvGetPatchMbox 1; EvWriteFile "/tmp/x/7/1.patch" "mbox 1";
    EvGitAm "/tmp/x/7/1.patch"; EvPostCheck 1 "pre-ci_am" 1 "Success";
    EvGetPatchMbox 2; EvWriteFile "/tmp/x/7/2.patch" "mbox 2";
    EvGitAm "/tmp/x/7/2.patch"; EvGitAmAbort;
    EvPostCheck 2 "pre-ci_am" 3 "error: patch failed";
    EvSetReceivers ["list@example.org"; "dev@example.org"];
    EvCompose "RE: BlueZ: feature" (EMAIL_MESSAGE_format "error: patch failed")
      [("In-Reply-To", "<msg1@example>"); ("References", "<msg1@example>");
       ("Reply-To", "list@example.org")];
    EvSend]).
Proof.
  exact (first_failure_stops_the_series
           (Fixture.ci false false ["/tmp/x/7/2.patch"] [] []) Fixture.series3
           [Fixture.patch 1] (Fixture.patch 2) [Fixture.patch 3]
           eq_refl eq_refl eq_refl eq_refl eq_refl eq_refl).
Defined.

(** C1, as stated, fails: with the dry-run flag set, pull requests
    enabled and every patch applying, the branch is pushed and the pull
    request is requested. *)
Lemma dry_run_suppresses_pull_request_counterexample :
  ~ dry_run_suppresses_pull_request (Fixture.ci true false [] [] [])
      Fixture.series3.
Proof.
  intros H. specialize (H eq_refl eq_refl eq_refl).
  vm_compute in H. discriminate H.
Qed.

(** C1, amended: for a series whose patches all apply, with pull requests
    enabled and the dry-run flag set, no check is posted and no mail is
    composed or sent; the series branch is still pushed and, when the push
    succeeds, the pull request is still requested. *)
Theorem dry_run_still_requests_pull_request (ci_data : CiContext)
    (series : Series) (p0 : Patch) (rest : list Patch) :
  dry_run (config ci_data) = true ->
  disable_pr (config ci_data) = false ->
  checkouts_succeed ci_data series = true ->
  series_patches series = p0 :: rest ->
  forallb (applies ci_data (series_dir_of ci_data series)) (p0 :: rest) = true ->
  trace_of (series_check_patches ci_data series) =
  (setup_events ci_data series ++
   flat_map (attempt_events ci_data (series_dir_of ci_data series)) (p0 :: rest) ++
   EvGitPush (Py.str_of_int (series_id series)) ::
   (if Py.truthy (repo_git_push ci_data (Py.str_of_int (series_id series)))
    then [EvLogError "Failed to push the source to Github"]
    else [EvGetPatch (patch_id p0);
          EvCreatePr
            ("[PW_SID:" ++ Py.str_of_int (series_id series) ++ "] " ++
             Py.str_of_opt (series_name series))
            (pd_content (pw_get_patch ci_data (patch_id p0)))
            (branch (config ci_data))
            (Py.str_of_int (series_id series))]))%list.
Proof.
  intros Hdry Hpr Hco Hpatches Hall.
  rewrite (series_check_patches_success ci_data series p0 rest) by assumption.
  rewrite Hdry, Hpr. cbn [trace_of snd orb].
  rewrite applied_events_quiet. reflexivity.
Qed.

Lemma dry_run_still_requests_pull_request_witness :
  trace_of (series_check_patches (Fixture.ci true false [] [] [])
              Fixture.series3) =
  [EvPathExists "/tmp/x/7"; EvMakedirs "/tmp/x/7";
   EvGitCheckout "master" false; EvGitCheckout "7" true; EvGetPatch 1;
   EvGetPatchMbox 1; EvWriteFile "/tmp/x/7/1.patch" "mbox 1";
   EvGitAm "/tmp/x/7/1.patch";
   EvGetPatchMbox 2; EvWriteFile "/tmp/x/7/2.patch" "mbox 2";
   EvGitAm "/tmp/x/7/2.patch";
   EvGetPatchMbox 3; EvWriteFile "/tmp/x/7/3.patch" "mbox 3";
   EvGitAm "/tmp/x/7/3.patch";
   EvGitPush "7"; EvGetPatch 1;
   EvCreatePr "[PW_SID:7] BlueZ: feature" "commit message" "master" "7"].
Proof.
  exact (dry_run_still_requests_pull_request
           (Fixture.ci true false [] [] []) Fixture.series3
           (Fixture.patch 1) [Fixture.patch 2; Fixture.patch 3]
           eq_refl eq_refl eq_refl eq_refl eq_refl).
Defined.

(** C2, as stated, fails: with the dry-run flag set and a failing patch,
    [series_check_patches] returns before [send_email]; no recipient is
    set and nothing is composed. *)
Lemma dry_run_composes_notification_counterexample :
  ~ dry_run_composes_notification
      (Fixture.ci true false ["/tmp/x/7/2.patch"] [] []) Fixture.series3.
Proof.
  intros H. destruct (H eq_refl eq_refl) as [Hcomposed _].
  vm_compute in Hcomposed. discriminate Hcomposed.
Qed.

(** C2, amended: for a series in which some patch fails to apply, with the
    dry-run flag set, [series_check_patches] ends after [git am --abort]:
    no check is posted, no recipient is set, nothing is composed and
    nothing is sent.  [send_email] itself, called with the flag set, sets
    the recipients and composes the message and skips only the send. *)
Theorem dry_run_skips_notification (ci_data : CiContext) (series : Series)
    (before : list Patch) (patch : Patch) (after : list Patch)
    (content : string) :
  dry_run (config ci_data) = true ->
  checkouts_succeed ci_data series = true ->
  series_patches series = (before ++ patch :: after)%list ->
  forallb (applies ci_data (series_dir_of ci_data series)) before = true ->
  applies ci_data (series_dir_of ci_data series) patch = false ->
  series_check_patches ci_data series =
    (Val false,
     (setup_events ci_data series ++
      flat_map (attempt_events ci_data (series_dir_of ci_data series)) before ++
      attempt_events ci_data (series_dir_of ci_data series) patch ++
      [EvGitAmAbort])%list) /\
  exists headers,
    send_email ci_data series content =
      (Val tt,
       [EvSetReceivers (get_receivers (email (config ci_data))
                          (submitter_email series));
        EvCompose ("RE: " ++ Py.str_of_opt (series_name series))
                  (EMAIL_MESSAGE_format content) headers]).
Proof.
  intros Hdry Hco Hpatches Hbefore Hpatch. split.
  - rewrite (series_check_patches_failure ci_data series before patch after)
      by assumption.
    rewrite Hdry. cbn [orb]. rewrite applied_events_quiet.
    unfold failed_events. now rewrite app_nil_r.
  - assert (Hhd : exists p0 rest, series_patches series = p0 :: rest).
    { rewrite Hpatches. destruct before; simpl; eauto. }
    destruct Hhd as (p0 & rest & Hhd).
    rewrite (send_email_events ci_data series p0 rest content Hhd), Hdry.
    eexists. reflexivity.
Qed.

Lemma dry_run_skips_notification_witness :
  series_check_patches (Fixture.ci true false ["/tmp/x/7/2.patch"] [] [])
    Fixture.series3 =
  (Val false,
   [EvPathExists "/tmp/x/7"; EvMakedirs "/tmp/x/7";
    EvGitCheckout "master" false; EvGitCheckout "7" true; EvGetPatch 1;
    EvGetPatchMbox 1; EvWriteFile "/tmp/x/7/1.patch" "mbox 1";
    EvGitAm "/tmp/x/7/1.patch";
    EvGetPatchMbox 2; EvWriteFile "/tmp/x/7/2.patch" "mbox 2";
    EvGitAm "/tmp/x/7/2.patch"; EvGitAmAbort]).
Proof.
  exact (proj1 (dry_run_skips_notification
                  (Fixture.ci true false ["/tmp/x/7/2.patch"] [] [])
                  Fixture.series3
                  [Fixture.patch 1] (Fixture.patch 2) [Fixture.patch 3]
                  "error: patch failed"
                  eq_refl eq_refl eq_refl eq_refl eq_refl)).
Defined.

(** ** The run as a whole *)

Lemma cleanup_passes_app (t t' : trace) :
  cleanup_passes (t ++ t')%list = (cleanup_passes t + cleanup_passes t')%nat.
Proof. unfold cleanup_passes. now rewrite filter_app, length_app. Qed.

Lemma no_cleanup_bind {A B} (m : M A) (f : A -> M B) :
  no_cleanup m -> (forall a, no_cleanup (f a)) -> no_cleanup (bind m f).
Proof.
  unfold no_cleanup. destruct m as [[a|e] t]; cbn [bind trace_of snd]; auto.
  intros Hm Hf. specialize (Hf a). destruct (f a) as [r t'].
  cbn [trace_of snd] in *. rewrite cleanup_passes_app. lia.
Qed.

Ltac no_cleanup_step :=
  match goal with
  | |- no_cleanup (bind _ _) => apply no_cleanup_bind; [|intros ?]
  | |- no_cleanup (if ?c then _ else _) => destruct c
  | |- no_cleanup (match ?x with _ => _ end) => destruct x
  | |- no_cleanup _ => reflexivity
  end.

Ltac no_cleanup_auto := repeat (assumption || no_cleanup_step).

Lemma no_cleanup_patch_get_file_list (patch : option string) :
  no_cleanup (patch_get_file_list patch).
Proof. destruct patch; reflexivity. Qed.

Lemma no_cleanup_patch_get_new_file_list (patch : option string) :
  no_cleanup (patch_get_new_file_list patch).
Proof.
  destruct patch; [|reflexivity].
  rewrite patch_get_new_file_list_created. reflexivity.
Qed.

Lemma no_cleanup_gather_file_lists (ci_data : CiContext) (flag : bool)
    (patches : list Patch) :
  forall file_list new_file_list,
    no_cleanup (gather_file_lists ci_data flag patches file_list new_file_list).
Proof.
  induction patches as [|patch rest IH]; intros fl nfl; [reflexivity|].
  cbn [gather_file_lists].
  apply no_cleanup_bind; [reflexivity|intros full_patch].
  apply no_cleanup_bind; [apply no_cleanup_patch_get_file_list|intros l1].
  apply no_cleanup_bind; [|intros l2; apply IH].
  destruct flag; [apply no_cleanup_patch_get_new_file_list|reflexivity].
Qed.

Lemma no_cleanup_series_get_file_list (ci_data : CiContext) (series : Series)
    (flag : bool) :
  no_cleanup (series_get_file_list ci_data series flag).
Proof.
  unfold series_get_file_list.
  apply no_cleanup_bind; [apply no_cleanup_gather_file_lists|intros [l1 l2]].
  no_cleanup_auto.
Qed.

Lemma no_cleanup_search_any (re : string -> string -> bool)
    (patterns : list string) (name : option string) :
  no_cleanup (search_any re patterns name).
Proof.
  induction patterns as [|str rest IH]; [reflexivity|].
  cbn [search_any]. apply no_cleanup_bind.
  - destruct name; reflexivity.
  - intros [|]; [reflexivity|exact IH].
Qed.

Lemma no_cleanup_files_exist (ci_data : CiContext) (src_dir : string)
    (file_list : list string) :
  no_cleanup (files_exist ci_data src_dir file_list).
Proof.
  induction file_list as [|f rest IH]; [reflexivity|].
  cbn [files_exist]. apply no_cleanup_bind; [reflexivity|].
  intros [|]; cbn [negb]; [exact IH|reflexivity].
Qed.

Lemma no_cleanup_filter_repo_space (re : string -> string -> bool)
    (ci_data : CiContext) (space_details : SpaceDetails) (series : Series)
    (src_dir : string) :
  no_cleanup (filter_repo_space re ci_data space_details series src_dir).
Proof.
  unfold filter_repo_space.
  apply no_cleanup_bind; [apply no_cleanup_search_any|intros [|]];
    [reflexivity|].
  apply no_cleanup_bind; [apply no_cleanup_search_any|intros [|]];
    [reflexivity|].
  apply no_cleanup_bind; [apply no_cleanup_series_get_file_list|intros l].
  destruct (List.length l =? 0)%nat; [reflexivity|apply no_cleanup_files_exist].
Qed.

Lemma no_cleanup_send_email (ci_data : CiContext) (series : Series)
    (content : string) :
  no_cleanup (send_email ci_data series content).
Proof.
  unfold send_email. destruct (series_patches series); [reflexivity|].
  cbn [first_item]. rewrite bind_ret_l.
  destruct (dry_run (config ci_data)); reflexivity.
Qed.

Lemma no_cleanup_apply_patches (ci_data : CiContext) (series_dir : string)
    (already_checked : bool) (patches : list Patch) :
  no_cleanup (apply_patches ci_data series_dir already_checked patches).
Proof.
  induction patches as [|patch rest IH]; [reflexivity|].
  rewrite apply_patches_step.
  destruct (applies ci_data series_dir patch).
  - unfold no_cleanup in *. cbn [trace_of snd].
    rewrite cleanup_passes_app. fold (trace_of (apply_patches ci_data series_dir already_checked rest)).
    rewrite IH.
    destruct (dry_run (config ci_data) || already_checked); reflexivity.
  - destruct (dry_run (config ci_data) || already_checked); reflexivity.
Qed.

Lemma no_cleanup_series_check_patches (ci_data : CiContext) (series : Series) :
  no_cleanup (series_check_patches ci_data series).
Proof.
  unfold series_check_patches. cbv zeta.
  apply no_cleanup_bind; [reflexivity|intros present].
  apply no_cleanup_bind; [destruct present; reflexivity|intros _].
  apply no_cleanup_bind; [reflexivity|intros rc].
  destruct (Py.truthy rc); [reflexivity|].
  apply no_cleanup_bind; [reflexivity|intros rc2].
  destruct (Py.truthy rc2); [reflexivity|].
  apply no_cleanup_bind; [destruct (series_patches series); reflexivity|intros p0].
  apply no_cleanup_bind; [reflexivity|intros patch_1].
  apply no_cleanup_bind; [apply no_cleanup_apply_patches|intros [verdict content]].
  destruct verdict; cbn [negb].
  - destruct (disable_pr (config ci_data)); [reflexivity|].
    apply no_cleanup_bind; [reflexivity|intros rc3].
    destruct (Py.truthy rc3); [reflexivity|].
    apply no_cleanup_bind; [destruct (series_patches series); reflexivity|intros q].
    apply no_cleanup_bind; [reflexivity|intros pd].
    apply no_cleanup_bind; [reflexivity|intros [|]; reflexivity].
  - destruct (dry_run (config ci_data) || _); [reflexivity|].
    apply no_cleanup_bind; [apply no_cleanup_send_email|reflexivity].
Qed.

Lemma no_cleanup_run_series_loop (re : string -> string -> bool)
    (ci_data : CiContext) (space_details : SpaceDetails)
    (new_series : list Series) :
  no_cleanup (run_series_loop re ci_data space_details new_series).
Proof.
  induction new_series as [|series rest IH]; [reflexivity|].
  cbn [run_series_loop].
  apply no_cleanup_bind.
  { destruct (series_name series); [reflexivity|].
    destruct (series_patches series); reflexivity. }
  intros series'.
  apply no_cleanup_bind; [apply no_cleanup_filter_repo_space|intros belongs].
  apply no_cleanup_bind.
  { destruct belongs; cbn [negb]; [|reflexivity].
    apply no_cleanup_bind; [reflexivity|intros [|]]; [reflexivity|].
    apply no_cleanup_bind; [apply no_cleanup_series_check_patches|reflexivity]. }
  intros _. apply no_cleanup_bind; [exact IH|reflexivity].
Qed.

Lemma no_cleanup_run_series (re : string -> string -> bool)
    (ci_data : CiContext) (new_series : list Series) :
  no_cleanup (run_series re ci_data new_series).
Proof.
  unfold run_series. apply no_cleanup_bind.
  - induction (space_details (config ci_data)) as [|[k v] d IH]; [reflexivity|].
    cbn [dict_get]. destruct (String.eqb k _); [reflexivity|exact IH].
  - intros sd. apply no_cleanup_run_series_loop.
Qed.

Lemma bind_result_inv {A B} (m : M A) (f : A -> M B) (b : B) :
  result_of (bind m f) = Val b ->
  exists a, result_of m = Val a /\ result_of (f a) = Val b.
Proof.
  destruct m as [[a|e] t]; [|discriminate].
  rewrite bind_val. cbn [result_of fst]. intros H.
  exists a. split; [reflexivity|exact H].
Qed.

(** The loop over the series changes names only: the ids it passes on to
    the cleanup are those of the fetched list. *)
Lemma run_series_loop_ids (re : string -> string -> bool)
    (ci_data : CiContext) (space_details : SpaceDetails)
    (new_series : list Series) :
  forall processed,
    result_of (run_series_loop re ci_data space_details new_series) = Val processed ->
    map series_id processed = map series_id new_series.
Proof.
  induction new_series as [|series rest IH]; intros processed.
  - intros [= <-]. reflexivity.
  - cbn [run_series_loop]. intros H.
    apply bind_result_inv in H as (series' & Hname & H).
    apply bind_result_inv in H as (belongs & _ & H).
    apply bind_result_inv in H as (_ & _ & H).
    apply bind_result_inv in H as (rest' & Hrest & H).
    injection H as <-. cbn [map]. f_equal; [|apply IH; exact Hrest].
    destruct (series_name series).
    + now injection Hname as <-.
    + destruct (series_patches series); [discriminate|].
      now injection Hname as <-.
Qed.

Lemma run_series_ids (re : string -> string -> bool) (ci_data : CiContext)
    (new_series processed : list Series) :
  result_of (run_series re ci_data new_series) = Val processed ->
  map series_id processed = map series_id new_series.
Proof.
  unfold run_series. intros H.
  apply bind_result_inv in H as (sd & _ & H).
  eapply run_series_loop_ids; eassumption.
Qed.

Lemma cleanup_passes_close (prs : list PullRequest) :
  cleanup_passes (map (fun pr => EvClosePr (pr_number pr)) prs) = 0%nat.
Proof. induction prs as [|pr l IH]; [reflexivity|exact IH]. Qed.

Lemma check_args_valid (exists_abspath : string -> bool) (args : Args) :
  valid_args exists_abspath args = true ->
  check_args exists_abspath args = ret true.
Proof.
  unfold valid_args, check_args. intros H.
  apply andb_prop in H as [H Hsrc]. apply andb_prop in H as [Hcfg Hspace].
  rewrite Hcfg, Hsrc. cbn [negb].
  destruct (String.eqb (arg_space args) "kernel"),
           (String.eqb (arg_space args) "user"); try discriminate; reflexivity.
Qed.

Lemma returns_bind {A B} (m : M A) (f : A -> M B) :
  returns m -> (forall a, returns (f a)) -> returns (bind m f).
Proof.
  intros [a Ha] Hf. rewrite (M_eta m), Ha, bind_val. exact (Hf a).
Qed.

Ltac returns_step :=
  first
    [ solve [eexists; reflexivity]
    | match goal with
      | |- returns (bind _ _) => apply returns_bind; [|intros ?]
      | |- returns (if ?c then _ else _) => destruct c
      end ].

Lemma returns_gather_file_lists (ci_data : CiContext) (flag : bool)
    (patches : list Patch) :
  forall file_list new_file_list,
    returns (gather_file_lists ci_data flag patches file_list new_file_list).
Proof.
  induction patches as [|patch rest IH]; intros fl nfl; [returns_step|].
  cbn [gather_file_lists].
  apply returns_bind; [returns_step|intros full_patch].
  apply returns_bind; [|intros l1].
  { rewrite patch_get_file_list_val. returns_step. }
  apply returns_bind; [|intros l2; apply IH].
  destruct flag; [|returns_step].
  rewrite patch_get_new_file_list_val. returns_step.
Qed.







(** With no pending series the run ends after the fetch. *)
Lemma main_without_pending_series
    (re : string -> string -> bool) (exists_abspath : string -> bool)
    (fresh_temp_root : string) (make_context : Args -> string -> CiContext)
    (args : Args) :
  valid_args exists_abspath args = true ->
  pw_get_series_by_state (make_context args fresh_temp_root) 1 = [] ->
  main re exists_abspath fresh_temp_root make_context args =
    (Val tt, [EvGetSeriesByState 1]).
Proof.
  intros Hargs Hpending. unfold main.
  rewrite (check_args_valid _ _ Hargs), bind_ret_l. cbn [negb]. cbv zeta.
  rewrite bind_emit, Hpending. reflexivity.
Qed.

(** C3, as stated, fails: when the tracker has no pending series, [main]
    returns right after the fetch; the open pull requests are not listed
    and none is closed, although two of them are stale. *)
Lemma cleanup_runs_once_counterexample :
  ~ cleanup_runs_once Fixture.literal_search (fun _ => true) "/tmp/x"
      (fun _ _ => Fixture.ci false false [] [] Fixture.open_prs) Fixture.args.
Proof.
  unfold cleanup_runs_once.
  rewrite (main_without_pending_series Fixture.literal_search (fun _ => true)
             "/tmp/x"
             (fun _ _ => Fixture.ci false false [] [] Fixture.open_prs)
             Fixture.args eq_refl eq_refl).
  discriminate.
Qed.

Example stale_pull_requests_stay_open :
  filter (stale []) Fixture.open_prs =
  [ {| pr_number := 1; pr_title := "[PW_SID:10] foo" |};
    {| pr_number := 2; pr_title := "[PW_SID:99] bar" |} ].
Proof. reflexivity. Qed.

(** C3, amended: a run with valid arguments and a non-empty list of
    pending series, in which the processing of the series raises nothing
    (see [returns_run_series]), processes the full list and then performs
    the close-stale-PR pass, exactly once, over the ids of the fetched
    series. *)
Theorem cleanup_once_after_all_series
    (re_search_ignorecase : string -> string -> bool)
    (exists_abspath : string -> bool) (fresh_temp_root : string)
    (make_context : Args -> string -> CiContext) (args : Args)
    (processed : list Series) :
  valid_args exists_abspath args = true ->
  pw_get_series_by_state (make_context args fresh_temp_root) 1 <> [] ->
  result_of (run_series re_search_ignorecase (make_context args fresh_temp_root)
               (pw_get_series_by_state (make_context args fresh_temp_root) 1)) =
    Val processed ->
  main re_search_ignorecase exists_abspath fresh_temp_root make_context args =
    (Val tt,
     (EvGetSeriesByState 1 ::
      trace_of (run_series re_search_ignorecase
                  (make_context args fresh_temp_root)
                  (pw_get_series_by_state (make_context args fresh_temp_root) 1)) ++
      trace_of (cleanup_pullrequest (make_context args fresh_temp_root)
                  processed))%list) /\
  cleanup_passes
    (trace_of (main re_search_ignorecase exists_abspath fresh_temp_root
                 make_context args)) = 1%nat /\
  map series_id processed =
    map series_id (pw_get_series_by_state (make_context args fresh_temp_root) 1).
Proof.
  intros Hargs Hpending Hrun.
  assert (Hmain :
    main re_search_ignorecase exists_abspath fresh_temp_root make_context args =
    (Val tt,
     (EvGetSeriesByState 1 ::
      trace_of (run_series re_search_ignorecase
                  (make_context args fresh_temp_root)
                  (pw_get_series_by_state (make_context args fresh_temp_root) 1)) ++
      trace_of (cleanup_pullrequest (make_context args fresh_temp_root)
                  processed))%list)).
  { unfold main. rewrite (check_args_valid _ _ Hargs), bind_ret_l.
    cbn [negb]. cbv zeta. rewrite bind_emit.
    destruct (pw_get_series_by_state (make_context args fresh_temp_root) 1)
      as [|series rest] eqn:Hlist; [congruence|].
    change (List.length (series :: rest) =? 0)%nat with false. cbv iota.
    rewrite (M_eta (run_series _ _ _)), Hrun, bind_val.
    unfold cleanup_pullrequest at 1 2, get_prs.
    rewrite bind_call, cleanup_loop_closes_stale. reflexivity. }
  split; [exact Hmain|]. split.
  - rewrite Hmain. cbn [trace_of snd].
    change (EvGetSeriesByState 1 :: ?t)%list with ([EvGetSeriesByState 1] ++ t)%list.
    rewrite !cleanup_passes_app.
    rewrite (no_cleanup_run_series re_search_ignorecase).
    unfold cleanup_pullrequest, get_prs.
    rewrite bind_call, cleanup_loop_closes_stale. cbn [trace_of snd].
    change (EvGetPrs true :: ?t)%list with ([EvGetPrs true] ++ t)%list.
    rewrite cleanup_passes_app, cleanup_passes_close. reflexivity.
  - eapply run_series_ids. exact Hrun.
Qed.

Lemma cleanup_once_after_all_series_witness :
  cleanup_passes
    (trace_of (main Fixture.literal_search (fun _ => true) "/tmp/x"
                 (fun _ _ => Fixture.ci false false [] [Fixture.series3]
                               Fixture.open_prs)
                 Fixture.args)) = 1%nat.
Proof.
  exact (proj1 (proj2 (cleanup_once_after_all_series
                         Fixture.literal_search (fun _ => true) "/tmp/x"
                         (fun _ _ => Fixture.ci false false [] [Fixture.series3]
                                       Fixture.open_prs)
                         Fixture.args [Fixture.series3]
                         eq_refl ltac:(discriminate) eq_refl))).
Defined.

(** * Further properties *)

(** ** Events of a computation *)

Lemma within_bind {A B} (P : event -> bool) (m : M A) (f : A -> M B) :
  within P m -> (forall a, within P (f a)) -> within P (bind m f).
Proof.
  unfold within. destruct m as [[a|e] t]; cbn [bind trace_of snd]; auto.
  intros Hm Hf. specialize (Hf a). destruct (f a) as [r t'].
  cbn [trace_of snd] in *. rewrite forallb_app, Hm, Hf. reflexivity.
Qed.

Lemma within_weaken {A} (P Q : event -> bool) (m : M A) :
  (forall ev, P ev = true -> Q ev = true) -> within P m -> within Q m.
Proof.
  unfold within. intros HPQ. induction (trace_of m) as [|ev t IH]; [reflexivity|].
  cbn [forallb]. intros H. apply andb_prop in H as [Hev Ht].
  rewrite (HPQ ev Hev), (IH Ht). reflexivity.
Qed.

Lemma within_absent {A} (P Q : event -> bool) (m : M A) :
  (forall ev, P ev = true -> Q ev = false) -> within P m ->
  existsb Q (trace_of m) = false.
Proof.
  unfold within. intros HPQ. induction (trace_of m) as [|ev t IH]; [reflexivity|].
  cbn [forallb existsb]. intros H. apply andb_prop in H as [Hev Ht].
  rewrite (HPQ ev Hev), (IH Ht). reflexivity.
Qed.

Lemma within_In {A} (P : event -> bool) (m : M A) (ev : event) :
  within P m -> In ev (trace_of m) -> P ev = true.
Proof.
  unfold within. intros H Hin. rewrite forallb_forall in H. exact (H ev Hin).
Qed.

Ltac within_step :=
  first
    [ reflexivity
    | match goal with
      | |- within _ (bind _ _) => apply within_bind; [|intros ?]
      | |- within _ (if ?c then _ else _) => destruct c
      end ].

(** ** DiffAnalyzer, further *)

Lemma split_nl_nonempty (s : string) : Py.split_nl s <> [].
Proof.
  destruct s as [|c s]; [discriminate|]. cbn [Py.split_nl].
  destruct (Ascii.eqb c Py.newline); [discriminate|].
  destruct (Py.split_nl s); discriminate.
Qed.

Lemma split_nl_joined (t1 t2 : string) :
  Py.split_nl (t1 ++ line_feed ++ t2) = (Py.split_nl t1 ++ Py.split_nl t2)%list.
Proof.
  induction t1 as [|c t1 IH].
  - reflexivity.
  - cbn [append Py.split_nl]. fold (append t1 (line_feed ++ t2)).
    destruct (Ascii.eqb c Py.newline).
    + rewrite IH. reflexivity.
    + rewrite IH. pose proof (split_nl_nonempty t1) as Hne.
      destruct (Py.split_nl t1) as [|l ls]; [congruence|reflexivity].
Qed.

(** X1: the file list of two diffs joined by a line feed is the file list
    of the first followed by the file list of the second. *)
Theorem file_list_of_joined_diffs (t1 t2 : string) :
  patch_get_file_list (Some (t1 ++ line_feed ++ t2)) =
  ret (value_or [] (patch_get_file_list (Some t1)) ++
       value_or [] (patch_get_file_list (Some t2)))%list.
Proof.
  unfold patch_get_file_list. rewrite split_nl_joined, file_loop_app.
  reflexivity.
Qed.

(** X2: the new-file list of two diffs joined by a line feed is the
    new-file list of the first followed by that of the second, provided
    the first does not end on a creation marker that still waits for its
    next line. *)
Theorem new_file_list_of_joined_diffs (t1 t2 : string) :
  ends_open (Py.split_nl t1) = false ->
  patch_get_new_file_list (Some (t1 ++ line_feed ++ t2)) =
  ret (value_or [] (patch_get_new_file_list (Some t1)) ++
       value_or [] (patch_get_new_file_list (Some t2)))%list.
Proof.
  intros Hopen. rewrite !patch_get_new_file_list_created, split_nl_joined.
  rewrite created_app by assumption. reflexivity.
Qed.

Lemma new_file_list_of_joined_diffs_witness :
  patch_get_new_file_list
    (Some (("--- /dev/null" ++ line_feed ++ "+++ b/one.c") ++ line_feed ++
           ("--- /dev/null" ++ line_feed ++ "+++ b/two.c"))) =
  ret ["one.c"; "two.c"].
Proof.
  exact (new_file_list_of_joined_diffs
           ("--- /dev/null" ++ line_feed ++ "+++ b/one.c")
           ("--- /dev/null" ++ line_feed ++ "+++ b/two.c") eq_refl).
Defined.

Lemma find_from_no_slash (s : string) (i : Z) :
  no_slash s = true -> Py.find_from s "/" i = -1.
Proof.
  revert i. induction s as [|c s IH]; intros i Hno; [reflexivity|].
  cbn [no_slash] in Hno. apply andb_prop in Hno as [Hc Hs].
  cbn [Py.find_from String.prefix].
  destruct (ascii_dec "/"%char c) as [<-|Hne]; [discriminate|].
  apply IH. exact Hs.
Qed.

Lemma trim_prefix_no_slash (line : string) :
  no_slash line = true -> trim_prefix line = line.
Proof.
  intros Hno. unfold trim_prefix, Py.find.
  rewrite find_from_no_slash by assumption. reflexivity.
Qed.

(** X3: a marker line without any [/] is not trimmed: [find] answers -1,
    the slice starts at 0, and the entry is the whole line, [--- ]
    included. *)
Theorem marker_without_slash_is_kept_whole
    (text : string) (pre post : list string) (line : string) :
  Py.split_nl text = (pre ++ line :: post)%list ->
  kept_marker line = true ->
  no_slash line = true ->
  patch_get_file_list (Some text) =
  ret (file_loop pre [] ++ line :: file_loop post [])%list.
Proof.
  intros Hlines Hkept Hno. unfold patch_get_file_list.
  rewrite Hlines, file_loop_app. rewrite (file_loop_filter (line :: post)).
  cbn [filter]. rewrite Hkept. cbn [map app].
  rewrite trim_prefix_no_slash by assumption.
  rewrite (file_loop_filter post). reflexivity.
Qed.

Lemma marker_without_slash_is_kept_whole_witness :
  patch_get_file_list (Some ("--- Makefile" ++ line_feed ++ "+++ Makefile")) =
  ret ["--- Makefile"].
Proof.
  exact (marker_without_slash_is_kept_whole
           ("--- Makefile" ++ line_feed ++ "+++ Makefile")
           [] ["+++ Makefile"] "--- Makefile" eq_refl eq_refl eq_refl).
Defined.

(** ** series_get_file_list and filter_repo_space, further *)

Lemma gather_file_lists_plain (ci_data : CiContext) (patches : list Patch) :
  forall file_list new_file_list,
    result_of (gather_file_lists ci_data false patches file_list new_file_list) =
    Val ((file_list ++
            flat_map (fun patch =>
                        value_or [] (patch_get_file_list (diff_of ci_data patch)))
                     patches)%list,
         new_file_list).
Proof.
  induction patches as [|patch rest IH]; intros fl nfl.
  - simpl. now rewrite app_nil_r.
  - cbn [gather_file_lists flat_map]. unfold get_patch.
    rewrite bind_call. cbn [result_of fst].
    fold (diff_of ci_data patch).
    rewrite (patch_get_file_list_val (diff_of ci_data patch)), bind_val.
    cbn [result_of fst]. rewrite bind_ret_l.
    fold (result_of (gather_file_lists ci_data false rest
            (fl ++ value_or [] (patch_get_file_list (diff_of ci_data patch)))%list
            (nfl ++ [])%list)).
    rewrite IH, app_nil_r, app_assoc. reflexivity.
Qed.

(** X4: without [ignore_new_file] the file lists of the patches are
    returned one after the other, new files included; with it, the same
    list is returned when no patch of the series creates a file. *)
Theorem file_list_keeps_new_files_unless_asked (ci_data : CiContext)
    (series : Series) :
  result_of (series_get_file_list ci_data series false) =
    Val (series_files ci_data series) /\
  (series_new_files ci_data series = [] ->
   result_of (series_get_file_list ci_data series true) =
     Val (series_files ci_data series)).
Proof.
  split.
  - unfold series_get_file_list.
    rewrite (M_eta (gather_file_lists ci_data false (series_patches series) [] [])).
    rewrite gather_file_lists_plain, bind_val. reflexivity.
  - intros Hnone. rewrite series_get_file_list_result.
    unfold files_excluding_new. rewrite Hnone, filter_nothing_new. reflexivity.
Qed.

Lemma file_list_keeps_new_files_unless_asked_witness :
  result_of (series_get_file_list (Fixture.ci false false [] [] [])
               Fixture.series3 true) =
  Val ["Makefile"; "Makefile"; "Makefile"].
Proof.
  exact (proj2 (file_list_keeps_new_files_unless_asked
                  (Fixture.ci false false [] [] []) Fixture.series3) eq_refl).
Defined.

Lemma no_get_patch_in_file_list (patch : option string) :
  filter is_get_patch (trace_of (patch_get_file_list patch)) = [].
Proof. destruct patch; reflexivity. Qed.

Lemma no_get_patch_in_new_file_list (patch : option string) :
  filter is_get_patch (trace_of (patch_get_new_file_list patch)) = [].
Proof.
  destruct patch; [|reflexivity].
  rewrite patch_get_new_file_list_created. reflexivity.
Qed.

Lemma gather_file_lists_fetches (ci_data : CiContext) (flag : bool)
    (patches : list Patch) :
  forall file_list new_file_list,
    filter is_get_patch
      (trace_of (gather_file_lists ci_data flag patches file_list new_file_list)) =
    map (fun patch => EvGetPatch (patch_id patch)) patches.
Proof.
  induction patches as [|patch rest IH]; intros fl nfl; [reflexivity|].
  cbn [gather_file_lists map]. unfold get_patch.
  rewrite bind_call. cbn [trace_of snd filter is_get_patch]. f_equal.
  fold (diff_of ci_data patch).
  rewrite (patch_get_file_list_val (diff_of ci_data patch)), bind_val.
  cbn [trace_of snd]. rewrite filter_app, no_get_patch_in_file_list.
  cbn [app].
  assert (Hnew : exists l t,
             (if flag then patch_get_new_file_list (diff_of ci_data patch)
              else ret []) = (Val l, t) /\ filter is_get_patch t = []).
  { destruct flag.
    - eexists _, _. split; [apply patch_get_new_file_list_val|].
      apply no_get_patch_in_new_file_list.
    - exists [], []. split; reflexivity. }
  destruct Hnew as (l & t & -> & Ht).
  rewrite bind_val. cbn [trace_of snd]. rewrite filter_app, Ht. cbn [app].
  apply IH.
Qed.

(** X5: [series_get_file_list] fetches each patch of the series from the
    tracker exactly once, in series order, whatever the flag. *)
Theorem file_list_fetches_each_patch_once (ci_data : CiContext)
    (series : Series) (ignore_new_file : bool) :
  filter is_get_patch
    (trace_of (series_get_file_list ci_data series ignore_new_file)) =
  map (fun patch => EvGetPatch (patch_id patch)) (series_patches series).
Proof.
  unfold series_get_file_list.
  pose proof (returns_gather_file_lists ci_data ignore_new_file
                (series_patches series) [] []) as [[l1 l2] Hval].
  rewrite (M_eta (gather_file_lists _ _ _ _ _)), Hval, bind_val.
  cbn [trace_of snd]. rewrite filter_app.
  rewrite gather_file_lists_fetches.
  destruct (negb ignore_new_file || (List.length l2 =? 0)%nat);
    cbn [trace_of snd ret filter]; now rewrite app_nil_r.
Qed.

Lemma within_reads_file_lists (ci_data : CiContext) (flag : bool)
    (patches : list Patch) :
  forall file_list new_file_list,
    within reads (gather_file_lists ci_data flag patches file_list new_file_list).
Proof.
  induction patches as [|patch rest IH]; intros fl nfl; [reflexivity|].
  cbn [gather_file_lists].
  apply within_bind; [reflexivity|intros full_patch].
  apply within_bind; [destruct (pd_diff full_patch); reflexivity|intros l1].
  apply within_bind; [|intros l2; apply IH].
  destruct flag; [|reflexivity].
  destruct (pd_diff full_patch); [|reflexivity].
  rewrite patch_get_new_file_list_created. reflexivity.
Qed.

Lemma within_reads_files_exist (ci_data : CiContext) (src_dir : string)
    (file_list : list string) :
  within reads (files_exist ci_data src_dir file_list).
Proof.
  induction file_list as [|f rest IH]; [reflexivity|].
  cbn [files_exist]. apply within_bind; [reflexivity|].
  intros [|]; cbn [negb]; [exact IH|reflexivity].
Qed.

Lemma within_search_any (P : event -> bool) (re : string -> string -> bool)
    (patterns : list string) (name : option string) :
  within P (search_any re patterns name).
Proof.
  induction patterns as [|str rest IH]; [reflexivity|].
  cbn [search_any]. apply within_bind.
  - destruct name; reflexivity.
  - intros [|]; [reflexivity|exact IH].
Qed.

Lemma filter_repo_space_only_reads_aux (re : string -> string -> bool)
    (ci_data : CiContext) (space_details : SpaceDetails) (series : Series)
    (src_dir : string) :
  within reads (filter_repo_space re ci_data space_details series src_dir).
Proof.
  unfold filter_repo_space.
  apply within_bind; [apply within_search_any|intros [|]]; [reflexivity|].
  apply within_bind; [apply within_search_any|intros [|]]; [reflexivity|].
  apply within_bind; [|intros l].
  - unfold series_get_file_list.
    apply within_bind; [apply within_reads_file_lists|intros [l1 l2]].
    repeat within_step.
  - destruct (List.length l =? 0)%nat; [reflexivity|apply within_reads_files_exist].
Qed.

(** X6: [filter_repo_space] only reads.  Whatever the series, the
    configuration and the answers of the collaborators, and also when it
    raises, its events are fetches of a patch, existence tests and
    messages: nothing is written to the tracker, the repository, the
    hosting platform or the mailer. *)
Theorem filter_repo_space_only_reads (re_search_ignorecase : string -> string -> bool)
    (ci_data : CiContext) (space_details : SpaceDetails) (series : Series)
    (src_dir : string) :
  within reads
    (filter_repo_space re_search_ignorecase ci_data space_details series src_dir).
Proof. apply filter_repo_space_only_reads_aux. Qed.

(** X7: a series without a name cannot be matched: as soon as one pattern
    is configured, [re.search] gets [None] and [filter_repo_space] ends
    with a [TypeError], before any patch is fetched. *)
Theorem nameless_series_is_a_type_error
    (re_search_ignorecase : string -> string -> bool) (ci_data : CiContext)
    (space_details : SpaceDetails) (series : Series) (src_dir : string) :
  series_name series = None ->
  (sd_exclude space_details ++ sd_include space_details)%list <> [] ->
  filter_repo_space re_search_ignorecase ci_data space_details series src_dir =
    (Exc TypeError, []).
Proof.
  intros Hname Hpatterns. unfold filter_repo_space. rewrite Hname.
  destruct (sd_exclude space_details) as [|p ps]; [|reflexivity].
  cbn [search_any]. rewrite bind_ret_l.
  destruct (sd_include space_details) as [|p ps]; [|reflexivity].
  now contradiction Hpatterns.
Qed.

Lemma nameless_series_is_a_type_error_witness :
  filter_repo_space Fixture.literal_search (Fixture.ci false false [] [] [])
    {| sd_include := ["^BlueZ"]; sd_exclude := [] |}
    {| series_id := 7; series_name := None; series_patches := [Fixture.patch 1];
       submitter_email := "dev@example.org" |} "/src" =
  (Exc TypeError, []).
Proof.
  apply nameless_series_is_a_type_error; [reflexivity|discriminate].
Defined.

Lemma marker_free_file_list (diff : option string) :
  marker_free diff = true -> value_or [] (patch_get_file_list diff) = [].
Proof.
  destruct diff as [text|]; [|reflexivity].
  cbn [marker_free]. unfold patch_get_file_list, value_or. cbn [result_of fst ret].
  rewrite file_loop_filter. cbn [app].
  induction (Py.split_nl text) as [|line rest IH]; [reflexivity|].
  cbn [forallb filter]. intros H. apply andb_prop in H as [Hline Hrest].
  unfold kept_marker at 1. destruct (is_marker line); [discriminate|].
  cbn [andb]. exact (IH Hrest).
Qed.

(** X8: a series none of whose diffs has a [--- ] line (or whose diffs
    are missing) gives no file evidence: when no pattern matches its name
    it is rejected, and the last event is the logged error. *)
Theorem series_without_markers_is_rejected
    (re_search_ignorecase : string -> string -> bool) (ci_data : CiContext)
    (space_details : SpaceDetails) (series : Series) (src_dir name : string) :
  series_name series = Some name ->
  matches_any re_search_ignorecase (sd_exclude space_details) name = false ->
  matches_any re_search_ignorecase (sd_include space_details) name = false ->
  forallb (fun patch => marker_free (diff_of ci_data patch))
          (series_patches series) = true ->
  filter_repo_space re_search_ignorecase ci_data space_details series src_dir =
    (Val false,
     (trace_of (series_get_file_list ci_data series true) ++
      [EvLogError "ERROR: No files found in the series/patch"])%list).
Proof.
  intros Hname Hex Hinc Hfree.
  assert (Hfiles : series_files ci_data series = []).
  { unfold series_files.
    induction (series_patches series) as [|patch rest IH]; [reflexivity|].
    cbn [forallb] in Hfree. apply andb_prop in Hfree as [Hp Hrest].
    cbn [flat_map]. rewrite (marker_free_file_list _ Hp), (IH Hrest).
    reflexivity. }
  unfold filter_repo_space. rewrite Hname.
  rewrite search_any_matches, bind_ret_l, Hex.
  rewrite search_any_matches, bind_ret_l, Hinc.
  rewrite (M_eta (series_get_file_list ci_data series true)).
  rewrite series_get_file_list_result, bind_val.
  unfold files_excluding_new. rewrite Hfiles. reflexivity.
Qed.

Lemma series_without_markers_is_rejected_witness :
  filter_repo_space Fixture.literal_search (ci_with_diff None)
    {| sd_include := ["^kernel"]; sd_exclude := ["^RFC"] |}
    Fixture.series3 "/src" =
  (Val false,
   [EvGetPatch 1; EvLogError "WARNING: No file found in patch";
    EvLogError "WARNING: No file found in patch";
    EvGetPatch 2; EvLogError "WARNING: No file found in patch";
    EvLogError "WARNING: No file found in patch";
    EvGetPatch 3; EvLogError "WARNING: No file found in patch";
    EvLogError "WARNING: No file found in patch";
    EvLogError "ERROR: No files found in the series/patch"]).
Proof.
  exact (series_without_markers_is_rejected Fixture.literal_search
           (ci_with_diff None)
           {| sd_include := ["^kernel"]; sd_exclude := ["^RFC"] |}
           Fixture.series3 "/src" "BlueZ: feature"
           eq_refl eq_refl eq_refl eq_refl).
Defined.

(** ** send_email, further *)

(** X9: in maintainers-only mode the notification goes to the configured
    maintainers and to nobody else, and carries no [Reply-To]; it is
    threaded under the first patch of the series. *)
Theorem maintainers_only_notification (ci_data : CiContext) (series : Series)
    (p0 : Patch) (rest : list Patch) (content : string) :
  series_patches series = p0 :: rest ->
  only_maintainers (email (config ci_data)) = Some true ->
  send_email ci_data series content =
  (Val tt,
   (EvSetReceivers (maintainers (email (config ci_data))) ::
    EvCompose ("RE: " ++ Py.str_of_opt (series_name series))
              (EMAIL_MESSAGE_format content)
              [("In-Reply-To", patch_msgid p0); ("References", patch_msgid p0)] ::
    (if dry_run (config ci_data) then [] else [EvSend]))%list).
Proof.
  intros Hhd Honly.
  rewrite (send_email_events ci_data series p0 rest content Hhd).
  unfold get_receivers, is_maintainers_only. rewrite Honly. reflexivity.
Qed.

Lemma maintainers_only_notification_witness :
  send_email (with_config (Fixture.ci false false [] [] []) maintainers_only_cfg)
    Fixture.series3 "boom" =
  (Val tt,
   [EvSetReceivers ["m@example.org"];
    EvCompose "RE: BlueZ: feature" (EMAIL_MESSAGE_format "boom")
      [("In-Reply-To", "<msg1@example>"); ("References", "<msg1@example>")];
    EvSend]).
Proof.
  exact (maintainers_only_notification
           (with_config (Fixture.ci false false [] [] []) maintainers_only_cfg)
           Fixture.series3 (Fixture.patch 1)
           [Fixture.patch 2; Fixture.patch 3] "boom" eq_refl eq_refl).
Defined.

(** X10: unless the configuration sets [only-maintainers] to a true value
    (the key may be absent), the notification goes to the default
    recipient and the submitter, in this order, with [Reply-To] set to the
    default recipient. *)
Theorem default_notification (ci_data : CiContext) (series : Series)
    (p0 : Patch) (rest : list Patch) (content : string) :
  series_patches series = p0 :: rest ->
  only_maintainers (email (config ci_data)) <> Some true ->
  send_email ci_data series content =
  (Val tt,
   (EvSetReceivers [default_to (email (config ci_data)); submitter_email series] ::
    EvCompose ("RE: " ++ Py.str_of_opt (series_name series))
              (EMAIL_MESSAGE_format content)
              [("In-Reply-To", patch_msgid p0); ("References", patch_msgid p0);
               ("Reply-To", default_to (email (config ci_data)))] ::
    (if dry_run (config ci_data) then [] else [EvSend]))%list).
Proof.
  intros Hhd Honly.
  rewrite (send_email_events ci_data series p0 rest content Hhd).
  unfold get_receivers, is_maintainers_only.
  destruct (only_maintainers (email (config ci_data))) as [[|]|];
    [congruence|reflexivity|reflexivity].
Qed.

Lemma default_notification_witness :
  send_email (Fixture.ci false false [] [] []) Fixture.series3 "boom" =
  (Val tt,
   [EvSetReceivers ["list@example.org"; "dev@example.org"];
    EvCompose "RE: BlueZ: feature" (EMAIL_MESSAGE_format "boom")
      [("In-Reply-To", "<msg1@example>"); ("References", "<msg1@example>");
       ("Reply-To", "list@example.org")];
    EvSend]).
Proof.
  exact (default_notification (Fixture.ci false false [] [] []) Fixture.series3
           (Fixture.patch 1) [Fixture.patch 2; Fixture.patch 3] "boom"
           eq_refl ltac:(discriminate)).
Defined.

(** X11: for a series without patches [send_email] ends with an
    [IndexError] at [series['patches'][0]], before the mailer is touched. *)
Theorem notification_needs_a_first_patch (ci_data : CiContext)
    (series : Series) (content : string) :
  series_patches series = [] ->
  send_email ci_data series content = (Exc IndexError, []).
Proof. intros Hnone. unfold send_email. rewrite Hnone. reflexivity. Qed.

Lemma notification_needs_a_first_patch_witness :
  send_email (Fixture.ci false false [] [] [])
    {| series_id := 7; series_name := Some "empty"; series_patches := [];
       submitter_email := "dev@example.org" |} "boom" = (Exc IndexError, []).
Proof.
  exact (notification_needs_a_first_patch (Fixture.ci false false [] [] [])
           {| series_id := 7; series_name := Some "empty"; series_patches := [];
              submitter_email := "dev@example.org" |} "boom" eq_refl).
Defined.

(** ** series_check_patches, further *)

(** X12: when the checkout of the base branch fails, the series is given
    up at once: the error is logged, the result is [False], and neither
    the series branch nor the tracker is touched. *)
Theorem base_checkout_failure_ends_the_series (ci_data : CiContext)
    (series : Series) :
  Py.truthy (repo_git_checkout ci_data (branch (config ci_data)) false) = true ->
  series_check_patches ci_data series =
  (Val false,
   (EvPathExists (series_dir_of ci_data series) ::
    (if os_path_exists ci_data (series_dir_of ci_data series) then []
     else [EvMakedirs (series_dir_of ci_data series)]) ++
    [EvGitCheckout (branch (config ci_data)) false;
     EvLogError ("ERROR: Failed: git checkout " ++ branch (config ci_data))])%list).
Proof.
  intros Hfail. unfold series_check_patches. cbv zeta.
  fold (series_dir_of ci_data series).
  unfold path_exists, git_checkout, log_error.
  rewrite bind_call_after, bind_if_emit, bind_call_after, Hfail, bind_emit_after.
  destruct (os_path_exists ci_data (series_dir_of ci_data series)); reflexivity.
Qed.

Lemma base_checkout_failure_ends_the_series_witness :
  series_check_patches
    (with_repo (Fixture.ci false false [] [] [])
       (fun ref _ => if String.eqb ref "master" then 1 else 0) (fun _ => 0))
    Fixture.series3 =
  (Val false,
   [EvPathExists "/tmp/x/7"; EvMakedirs "/tmp/x/7";
    EvGitCheckout "master" false;
    EvLogError "ERROR: Failed: git checkout master"]).
Proof.
  exact (base_checkout_failure_ends_the_series
           (with_repo (Fixture.ci false false [] [] [])
              (fun ref _ => if String.eqb ref "master" then 1 else 0)
              (fun _ => 0))
           Fixture.series3 eq_refl).
Defined.

(** X13: when the base branch is checked out but the series branch cannot
    be created, the series is given up: the error is logged, the result is
    [False], and no patch is fetched or applied. *)
Theorem branch_creation_failure_ends_the_series (ci_data : CiContext)
    (series : Series) :
  Py.truthy (repo_git_checkout ci_data (branch (config ci_data)) false) = false ->
  Py.truthy (repo_git_checkout ci_data (Py.str_of_int (series_id series)) true) = true ->
  series_check_patches ci_data series =
  (Val false,
   (EvPathExists (series_dir_of ci_data series) ::
    (if os_path_exists ci_data (series_dir_of ci_data series) then []
     else [EvMakedirs (series_dir_of ci_data series)]) ++
    [EvGitCheckout (branch (config ci_data)) false;
     EvGitCheckout (Py.str_of_int (series_id series)) true;
     EvLogError ("ERROR: Failed: git checkout -b " ++
                 Py.str_of_int (series_id series))])%list).
Proof.
  intros Hbase Hfail. unfold series_check_patches. cbv zeta.
  fold (series_dir_of ci_data series).
  unfold path_exists, git_checkout, log_error.
  rewrite bind_call_after, bind_if_emit, bind_call_after, Hbase.
  rewrite bind_call_after, Hfail, bind_emit_after.
  destruct (os_path_exists ci_data (series_dir_of ci_data series)); reflexivity.
Qed.

Lemma branch_creation_failure_ends_the_series_witness :
  series_check_patches
    (with_repo (Fixture.ci false false [] [] [])
       (fun _ create => if create then 128 else 0) (fun _ => 0))
    Fixture.series3 =
  (Val false,
   [EvPathExists "/tmp/x/7"; EvMakedirs "/tmp/x/7";
    EvGitCheckout "master" false; EvGitCheckout "7" true;
    EvLogError "ERROR: Failed: git checkout -b 7"]).
Proof.
  exact (branch_creation_failure_ends_the_series
           (with_repo (Fixture.ci false false [] [] [])
              (fun _ create => if create then 128 else 0) (fun _ => 0))
           Fixture.series3 eq_refl eq_refl).
Defined.

(** X14: a series without patches makes [series_check_patches] end with an
    [IndexError], after both checkouts: the series branch exists, nothing
    else was done. *)
Theorem series_without_patches_is_an_index_error (ci_data : CiContext)
    (series : Series) :
  series_patches series = [] ->
  checkouts_succeed ci_data series = true ->
  series_check_patches ci_data series =
  (Exc IndexError, setup_events ci_data series).
Proof.
  intros Hnone Hco. apply checkouts_succeed_inv in Hco as [Hco1 Hco2].
  unfold series_check_patches, setup_events. cbv zeta. rewrite Hnone.
  fold (series_dir_of ci_data series).
  unfold path_exists, git_checkout.
  rewrite bind_call_after, bind_if_emit, bind_call_after, Hco1.
  rewrite bind_call_after, Hco2.
  destruct (os_path_exists ci_data (series_dir_of ci_data series)); reflexivity.
Qed.

Lemma series_without_patches_is_an_index_error_witness :
  series_check_patches (Fixture.ci false false [] [] [])
    {| series_id := 7; series_name := Some "empty"; series_patches := [];
       submitter_email := "dev@example.org" |} =
  (Exc IndexError,
   [EvPathExists "/tmp/x/7"; EvMakedirs "/tmp/x/7";
    EvGitCheckout "master" false; EvGitCheckout "7" true]).
Proof.
  exact (series_without_patches_is_an_index_error
           (Fixture.ci false false [] [] [])
           {| series_id := 7; series_name := Some "empty"; series_patches := [];
              submitter_email := "dev@example.org" |} eq_refl eq_refl).
Defined.

(** X15: for a series whose patches all apply, the result is [True] when
    pull requests are disabled; otherwise it is [False] when the push
    fails, and the answer of [create_pr] when the push succeeds.  The two
    reporting flags play no part in it. *)
Theorem result_of_an_applied_series (ci_data : CiContext) (series : Series)
    (p0 : Patch) (rest : list Patch) :
  series_patches series = p0 :: rest ->
  checkouts_succeed ci_data series = true ->
  forallb (applies ci_data (series_dir_of ci_data series)) (p0 :: rest) = true ->
  result_of (series_check_patches ci_data series) =
  Val (if disable_pr (config ci_data) then true
       else if Py.truthy (repo_git_push ci_data (Py.str_of_int (series_id series)))
            then false
            else gh_create_pr ci_data
                   ("[PW_SID:" ++ Py.str_of_int (series_id series) ++ "] " ++
                    Py.str_of_opt (series_name series))
                   (pd_content (pw_get_patch ci_data (patch_id p0)))
                   (branch (config ci_data))
                   (Py.str_of_int (series_id series))).
Proof.
  intros Hhd Hco Hall.
  rewrite (series_check_patches_success ci_data series p0 rest) by assumption.
  reflexivity.
Qed.

Lemma result_of_an_applied_series_witness :
  result_of (series_check_patches (Fixture.ci false true [] [] [])
               Fixture.series3) = Val true.
Proof.
  exact (result_of_an_applied_series (Fixture.ci false true [] [] [])
           Fixture.series3 (Fixture.patch 1) [Fixture.patch 2; Fixture.patch 3]
           eq_refl eq_refl eq_refl).
Defined.

Lemma within_after {A} (P : event -> bool) (t : trace) (m : M A) :
  forallb P t = true -> within P m -> within P (after_events t m).
Proof.
  unfold within, after_events. cbn [trace_of snd]. intros Ht Hm.
  rewrite forallb_app, Ht. exact Hm.
Qed.

Lemma within_series_alphabet_apply (ci_data : CiContext) (series_dir : string)
    (already_checked : bool) (patches : list Patch) :
  within (series_alphabet ci_data (dry_run (config ci_data) || already_checked))
         (apply_patches ci_data series_dir already_checked patches).
Proof.
  induction patches as [|patch rest IH]; [reflexivity|].
  rewrite apply_patches_step. unfold within in *.
  destruct (applies ci_data series_dir patch); cbn [trace_of snd].
  - rewrite forallb_app.
    fold (trace_of (apply_patches ci_data series_dir already_checked rest)).
    rewrite IH, andb_true_r. unfold applied_events.
    destruct (dry_run (config ci_data) || already_checked); reflexivity.
  - unfold failed_events.
    destruct (dry_run (config ci_data) || already_checked); reflexivity.
Qed.

Lemma within_series_alphabet_send (ci_data : CiContext) (series : Series)
    (content : string) :
  within (series_alphabet ci_data false) (send_email ci_data series content).
Proof.
  destruct (series_patches series) as [|p0 rest] eqn:Hhd.
  - unfold send_email. rewrite Hhd. reflexivity.
  - rewrite (send_email_events ci_data series p0 rest content Hhd).
    destruct (dry_run (config ci_data)); reflexivity.
Qed.

(** The events of [series_check_patches] stay within the alphabet of the
    series, on every path. *)
Lemma within_series_alphabet (ci_data : CiContext) (series : Series) :
  within (series_alphabet ci_data
            (dry_run (config ci_data) || already_checked_of ci_data series))
         (series_check_patches ci_data series).
Proof.
  unfold series_check_patches. cbv zeta.
  fold (series_dir_of ci_data series).
  unfold path_exists, git_checkout, get_patch, log_error, git_push, create_pr.
  rewrite bind_call_after. apply within_after; [reflexivity|].
  rewrite bind_if_emit. apply within_after; [destruct (negb _); reflexivity|].
  rewrite bind_call_after. apply within_after; [reflexivity|].
  destruct (Py.truthy _); [reflexivity|].
  rewrite bind_call_after. apply within_after; [reflexivity|].
  destruct (Py.truthy _); [reflexivity|].
  destruct (series_patches series) as [|p0 rest] eqn:Hhd; [reflexivity|].
  assert (Hac : already_checked_of ci_data series =
                negb (String.eqb (pd_check (pw_get_patch ci_data (patch_id p0))) "pending")).
  { unfold already_checked_of. now rewrite Hhd. }
  cbn [first_item]. rewrite bind_ret_l, bind_call_after.
  apply within_after; [reflexivity|]. rewrite <- Hac.
  apply within_bind; [apply within_series_alphabet_apply|].
  intros [verdict content]. destruct verdict; cbn [negb].
  - destruct (disable_pr (config ci_data)) eqn:Hpr; [reflexivity|].
    rewrite bind_call_after.
    apply within_after; [cbn; now rewrite Hpr|].
    destruct (Py.truthy _); [reflexivity|].
    rewrite bind_ret_l, bind_call_after.
    apply within_after; [reflexivity|].
    rewrite bind_call_after.
    apply within_after; [cbn; now rewrite Hpr|].
    destruct (gh_create_pr _ _ _ _ _); reflexivity.
  - destruct (dry_run (config ci_data) || already_checked_of ci_data series);
      [reflexivity|].
    apply within_bind; [apply within_series_alphabet_send|reflexivity].
Qed.

(** X16: when reporting is off for a series, because the run is a dry run
    or because the first patch already has a check, [series_check_patches]
    reports nothing on any path: no check is posted, no recipient is set,
    nothing is composed and nothing is sent. *)
Theorem quiet_series_reports_nothing (ci_data : CiContext) (series : Series) :
  dry_run (config ci_data) || already_checked_of ci_data series = true ->
  existsb reports (trace_of (series_check_patches ci_data series)) = false.
Proof.
  intros Hquiet.
  apply (within_absent (series_alphabet ci_data true)).
  - intros [] H; try reflexivity; discriminate H.
  - rewrite <- Hquiet. apply within_series_alphabet.
Qed.

Lemma quiet_series_reports_nothing_witness :
  existsb reports
    (trace_of (series_check_patches
                 (Fixture.ci true false ["/tmp/x/7/2.patch"] [] [])
                 Fixture.series3)) = false.
Proof.
  exact (quiet_series_reports_nothing
           (Fixture.ci true false ["/tmp/x/7/2.patch"] [] [])
           Fixture.series3 eq_refl).
Defined.

(** ** The run as a whole, further *)

Lemma series_alphabet_in_run (ci_data : CiContext) (quiet : bool) (ev : event) :
  series_alphabet ci_data (dry_run (config ci_data) || quiet) ev = true ->
  run_alphabet ci_data ev = true.
Proof.
  destruct ev; cbn [series_alphabet run_alphabet]; try reflexivity;
    try exact (fun H => H);
    destruct (dry_run (config ci_data)), quiet; cbn [orb negb andb];
    auto; discriminate.
Qed.

Lemma reads_in_run (ci_data : CiContext) (ev : event) :
  reads ev = true -> run_alphabet ci_data ev = true.
Proof. destruct ev; cbn; try reflexivity; discriminate. Qed.

Lemma within_run_alphabet_loop (re : string -> string -> bool)
    (ci_data : CiContext) (space_details : SpaceDetails)
    (new_series : list Series) :
  within (run_alphabet ci_data)
         (run_series_loop re ci_data space_details new_series).
Proof.
  induction new_series as [|series rest IH]; [reflexivity|].
  cbn [run_series_loop].
  apply within_bind.
  { destruct (series_name series); [reflexivity|].
    destruct (series_patches series); reflexivity. }
  intros series'.
  apply within_bind.
  { apply (within_weaken reads); [apply reads_in_run|].
    apply filter_repo_space_only_reads_aux. }
  intros belongs. apply within_bind.
  { destruct belongs; cbn [negb]; [|reflexivity].
    apply within_bind; [reflexivity|intros [|]]; [reflexivity|].
    apply within_bind; [|reflexivity].
    eapply within_weaken; [apply series_alphabet_in_run|].
    apply within_series_alphabet. }
  intros _. apply within_bind; [exact IH|reflexivity].
Qed.

Lemma within_run_alphabet_main (re : string -> string -> bool)
    (exists_abspath : string -> bool) (fresh_temp_root : string)
    (make_context : Args -> string -> CiContext) (args : Args) :
  within (run_alphabet (make_context args fresh_temp_root))
         (main re exists_abspath fresh_temp_root make_context args).
Proof.
  unfold main. apply within_bind.
  { unfold check_args. repeat within_step. }
  intros [|]; cbn [negb]; [|reflexivity]. cbv zeta.
  rewrite bind_emit_after. apply within_after; [reflexivity|].
  destruct (List.length _ =? 0)%nat; [reflexivity|].
  apply within_bind.
  - unfold run_series. apply within_bind.
    + induction (space_details _) as [|[k v] d IH]; [reflexivity|].
      cbn [dict_get]. destruct (String.eqb k _); [reflexivity|exact IH].
    + intros sd. apply within_run_alphabet_loop.
  - intros processed. unfold cleanup_pullrequest, get_prs.
    rewrite bind_call_after. apply within_after; [reflexivity|].
    rewrite cleanup_loop_closes_stale. unfold within. cbn [trace_of snd].
    induction (filter _ _) as [|pr l IH]; [reflexivity|exact IH].
Qed.

(** X17: a dry run reports nothing.  Whatever the arguments, the tracker,
    the repository and the hosting platform answer, and also when the run
    ends with an exception, [main] run on a context with the dry-run flag
    posts no check, sets no recipient, composes nothing and sends
    nothing. *)
Theorem dry_run_reports_nothing
    (re_search_ignorecase : string -> string -> bool)
    (exists_abspath : string -> bool) (fresh_temp_root : string)
    (make_context : Args -> string -> CiContext) (args : Args) :
  dry_run (config (make_context args fresh_temp_root)) = true ->
  existsb reports
    (trace_of (main re_search_ignorecase exists_abspath fresh_temp_root
                 make_context args)) = false.
Proof.
  intros Hdry.
  apply (within_absent (run_alphabet (make_context args fresh_temp_root)));
    [|apply within_run_alphabet_main].
  intros [] H; try reflexivity; cbn in H; rewrite Hdry in H; discriminate H.
Qed.

Lemma dry_run_reports_nothing_witness :
  existsb reports
    (trace_of (main Fixture.literal_search (fun _ => true) "/tmp/x"
                 (fun _ _ => Fixture.ci true false ["/tmp/x/7/2.patch"]
                               [Fixture.series3] Fixture.open_prs)
                 Fixture.args)) = false.
Proof.
  exact (dry_run_reports_nothing Fixture.literal_search (fun _ => true) "/tmp/x"
           (fun _ _ => Fixture.ci true false ["/tmp/x/7/2.patch"]
                         [Fixture.series3] Fixture.open_prs)
           Fixture.args eq_refl).
Defined.

(** X18: with pull requests disabled, a run never pushes a branch and
    never requests a pull request, on any path. *)
Theorem disabled_pull_requests_are_never_requested
    (re_search_ignorecase : string -> string -> bool)
    (exists_abspath : string -> bool) (fresh_temp_root : string)
    (make_context : Args -> string -> CiContext) (args : Args) :
  disable_pr (config (make_context args fresh_temp_root)) = true ->
  existsb pushes_or_requests
    (trace_of (main re_search_ignorecase exists_abspath fresh_temp_root
                 make_context args)) = false.
Proof.
  intros Hpr.
  apply (within_absent (run_alphabet (make_context args fresh_temp_root)));
    [|apply within_run_alphabet_main].
  intros [] H; try reflexivity; cbn in H; rewrite Hpr in H; discriminate H.
Qed.

Lemma disabled_pull_requests_are_never_requested_witness :
  existsb pushes_or_requests
    (trace_of (main Fixture.literal_search (fun _ => true) "/tmp/x"
                 (fun _ _ => Fixture.ci false true [] [Fixture.series3]
                               Fixture.open_prs)
                 Fixture.args)) = false.
Proof.
  exact (disabled_pull_requests_are_never_requested
           Fixture.literal_search (fun _ => true) "/tmp/x"
           (fun _ _ => Fixture.ci false true [] [Fixture.series3]
                         Fixture.open_prs)
           Fixture.args eq_refl).
Defined.

(** X19: every check a run posts to the tracker has the context
    [pre-ci_am] and the state 1 or 3. *)
Theorem posted_checks_are_pre_ci_am
    (re_search_ignorecase : string -> string -> bool)
    (exists_abspath : string -> bool) (fresh_temp_root : string)
    (make_context : Args -> string -> CiContext) (args : Args)
    (id : Z) (context : string) (state : Z) (description : string) :
  In (EvPostCheck id context state description)
     (trace_of (main re_search_ignorecase exists_abspath fresh_temp_root
                  make_context args)) ->
  context = "pre-ci_am" /\ (state = 1 \/ state = 3).
Proof.
  intros Hin.
  pose proof (within_In _ _ _ (within_run_alphabet_main re_search_ignorecase
                exists_abspath fresh_temp_root make_context args) Hin) as H.
  cbn [run_alphabet] in H. apply andb_prop in H as [_ H].
  unfold pre_ci_am_check in H. apply andb_prop in H as [Hc Hs].
  split; [now apply String.eqb_eq|].
  apply orb_prop in Hs as [Hs|Hs]; apply Z.eqb_eq in Hs; auto.
Qed.

Lemma posted_checks_are_pre_ci_am_witness :
  In (EvPostCheck 2 "pre-ci_am" 3 "error: patch failed")
     (trace_of (main Fixture.literal_search (fun _ => true) "/tmp/x"
                  (fun _ _ => Fixture.ci false false ["/tmp/x/7/2.patch"]
                                [Fixture.series3] Fixture.open_prs)
                  Fixture.args)) /\
  "pre-ci_am" = "pre-ci_am" /\ (3 = 1 \/ 3 = 3).
Proof.
  assert (Hin : In (EvPostCheck 2 "pre-ci_am" 3 "error: patch failed")
     (trace_of (main Fixture.literal_search (fun _ => true) "/tmp/x"
                  (fun _ _ => Fixture.ci false false ["/tmp/x/7/2.patch"]
                                [Fixture.series3] Fixture.open_prs)
                  Fixture.args))).
  { vm_compute. tauto. }
  split; [exact Hin|].
  exact (posted_checks_are_pre_ci_am Fixture.literal_search (fun _ => true)
           "/tmp/x"
           (fun _ _ => Fixture.ci false false ["/tmp/x/7/2.patch"]
                         [Fixture.series3] Fixture.open_prs)
           Fixture.args 2 "pre-ci_am" 3 "error: patch failed" Hin).
Defined.

(** ** run_series, further *)

(** X20: when the configuration has no details for the space of the run,
    [run_series] ends with a [KeyError] on that space before any series
    is looked at. *)
Theorem unknown_space_is_a_key_error
    (re_search_ignorecase : string -> string -> bool) (ci_data : CiContext)
    (new_series : list Series) :
  space_configured ci_data = false ->
  run_series re_search_ignorecase ci_data new_series =
    (Exc (KeyError (space (config ci_data))), []).
Proof.
  unfold space_configured, run_series. intros Hspace.
  induction (space_details (config ci_data)) as [|[k v] d IH]; [reflexivity|].
  cbn [existsb fst] in Hspace. apply orb_false_elim in Hspace as [Hk Hd].
  cbn [dict_get]. rewrite Hk. exact (IH Hd).
Qed.

Lemma unknown_space_is_a_key_error_witness :
  run_series Fixture.literal_search
    (with_config (Fixture.ci false false [] [] []) maintainers_only_cfg)
    [Fixture.series3] = (Exc (KeyError "user"), []).
Proof.
  exact (unknown_space_is_a_key_error Fixture.literal_search
           (with_config (Fixture.ci false false [] [] []) maintainers_only_cfg)
           [Fixture.series3] eq_refl).
Defined.

Lemma run_series_loop_fills_names (re : string -> string -> bool)
    (ci_data : CiContext) (space_details : SpaceDetails)
    (new_series : list Series) :
  forall processed,
    result_of (run_series_loop re ci_data space_details new_series) = Val processed ->
    processed = map fill_name new_series.
Proof.
  induction new_series as [|series rest IH]; intros processed.
  - intros [= <-]. reflexivity.
  - cbn [run_series_loop]. intros H.
    apply bind_result_inv in H as (series' & Hname & H).
    apply bind_result_inv in H as (belongs & _ & H).
    apply bind_result_inv in H as (_ & _ & H).
    apply bind_result_inv in H as (rest' & Hrest & H).
    injection H as <-. cbn [map]. f_equal; [|apply IH; exact Hrest].
    unfold fill_name. destruct (series_name series).
    + now injection Hname as <-.
    + destruct (series_patches series); [discriminate|].
      now injection Hname as <-.
Qed.

(** X21: the only change [run_series] makes to the pending series is the
    name: when it returns, each series without a name has got the name of
    its first patch, and everything else, order included, is as fetched. *)
Theorem run_series_only_fills_names
    (re_search_ignorecase : string -> string -> bool) (ci_data : CiContext)
    (new_series processed : list Series) :
  result_of (run_series re_search_ignorecase ci_data new_series) = Val processed ->
  processed = map fill_name new_series.
Proof.
  unfold run_series. intros H.
  apply bind_result_inv in H as (sd & _ & H).
  eapply run_series_loop_fills_names; eassumption.
Qed.

Lemma run_series_only_fills_names_witness :
  [set_name {| series_id := 8; series_name := None;
               series_patches := [Fixture.patch 4];
               submitter_email := "dev@example.org" |} "patch 4"] =
  map fill_name
      [{| series_id := 8; series_name := None;
          series_patches := [Fixture.patch 4];
          submitter_email := "dev@example.org" |}].
Proof.
  exact (run_series_only_fills_names Fixture.literal_search
           (Fixture.ci false false [] [] [])
           [{| series_id := 8; series_name := None;
               series_patches := [Fixture.patch 4];
               submitter_email := "dev@example.org" |}]
           _ eq_refl).
Defined.

(** One round of the loop of [run_series], for a series that has a name. *)
Lemma run_series_loop_round (re : string -> string -> bool)
    (ci_data : CiContext) (space_details : SpaceDetails) (series : Series)
    (rest : list Series) (name : string) (belongs : bool) :
  series_name series = Some name ->
  result_of (filter_repo_space re ci_data space_details series (src_dir ci_data)) =
    Val belongs ->
  trace_of (run_series_loop re ci_data space_details (series :: rest)) =
  (trace_of (filter_repo_space re ci_data space_details series (src_dir ci_data)) ++
   trace_of (if negb belongs then ret tt
             else
               exists_already <-
                 pr_exist_title ci_data
                   ("PW_SID:" ++ Py.str_of_int (series_id series)) ;;
               if exists_already then ret tt
               else series_check_patches ci_data series ;;; ret tt) ++
   match result_of (if negb belongs then ret tt
                    else
                      exists_already <-
                        pr_exist_title ci_data
                          ("PW_SID:" ++ Py.str_of_int (series_id series)) ;;
                      if exists_already then ret tt
                      else series_check_patches ci_data series ;;; ret tt) with
   | Val _ => trace_of (run_series_loop re ci_data space_details rest)
   | Exc _ => []
   end)%list.
Proof.
  intros Hname Hbelongs. cbn [run_series_loop]. rewrite Hname, bind_ret_l.
  rewrite (M_eta (filter_repo_space _ _ _ _ _)), Hbelongs, bind_val.
  cbn [trace_of snd fst result_of]. f_equal.
  set (gate := if negb belongs then ret tt else _).
  destruct gate as [[u|e] t]; cbn [trace_of snd result_of fst].
  - rewrite bind_val. cbn [trace_of snd]. f_equal.
    destruct (run_series_loop re ci_data space_details rest) as [[l|e] t'];
      cbn [bind trace_of snd ret]; [|reflexivity].
    now rewrite app_nil_r.
  - cbn [bind snd]. now rewrite app_nil_r.
Qed.

(** X22: a series that [filter_repo_space] rejects is passed over: after
    the events of the filter the loop goes on with the next series; the
    hosting client, the repository and the tracker's checks are not
    touched for it. *)
Theorem rejected_series_is_passed_over
    (re_search_ignorecase : string -> string -> bool) (ci_data : CiContext)
    (space_details : SpaceDetails) (series : Series) (rest : list Series)
    (name : string) :
  series_name series = Some name ->
  result_of (filter_repo_space re_search_ignorecase ci_data space_details
               series (src_dir ci_data)) = Val false ->
  trace_of (run_series_loop re_search_ignorecase ci_data space_details
              (series :: rest)) =
  (trace_of (filter_repo_space re_search_ignorecase ci_data space_details
               series (src_dir ci_data)) ++
   trace_of (run_series_loop re_search_ignorecase ci_data space_details rest))%list.
Proof.
  intros Hname Hrejected.
  rewrite (run_series_loop_round _ _ _ _ _ name false Hname Hrejected).
  reflexivity.
Qed.

Lemma rejected_series_is_passed_over_witness :
  trace_of (run_series_loop Fixture.literal_search
              (Fixture.ci false false [] [] [])
              {| sd_include := ["^BlueZ"]; sd_exclude := ["^RFC"] |}
              [set_name Fixture.series3 "RFC: BlueZ feature"]) = [].
Proof.
  exact (rejected_series_is_passed_over Fixture.literal_search
           (Fixture.ci false false [] [] [])
           {| sd_include := ["^BlueZ"]; sd_exclude := ["^RFC"] |}
           (set_name Fixture.series3 "RFC: BlueZ feature") []
           "RFC: BlueZ feature" eq_refl eq_refl).
Defined.

(** X23: a series that belongs to the repository and already has a pull
    request is passed over: after the filter, the only event for it is the
    question to the hosting client about the tag [PW_SID:<id>]. *)
Theorem series_with_pull_request_is_passed_over
    (re_search_ignorecase : string -> string -> bool) (ci_data : CiContext)
    (space_details : SpaceDetails) (series : Series) (rest : list Series)
    (name : string) :
  series_name series = Some name ->
  result_of (filter_repo_space re_search_ignorecase ci_data space_details
               series (src_dir ci_data)) = Val true ->
  has_pull_request ci_data series = true ->
  trace_of (run_series_loop re_search_ignorecase ci_data space_details
              (series :: rest)) =
  (trace_of (filter_repo_space re_search_ignorecase ci_data space_details
               series (src_dir ci_data)) ++
   EvPrExistTitle ("PW_SID:" ++ Py.str_of_int (series_id series)) ::
   trace_of (run_series_loop re_search_ignorecase ci_data space_details rest))%list.
Proof.
  intros Hname Haccepted Hexists.
  rewrite (run_series_loop_round _ _ _ _ _ name true Hname Haccepted).
  cbn [negb]. unfold pr_exist_title. rewrite bind_call.
  unfold has_pull_request in Hexists. rewrite Hexists. reflexivity.
Qed.

Lemma series_with_pull_request_is_passed_over_witness :
  trace_of (run_series_loop Fixture.literal_search
              (with_hosting (Fixture.ci false false [] [] []) (fun _ => true) [])
              {| sd_include := ["^BlueZ"]; sd_exclude := ["^RFC"] |}
              [Fixture.series3]) = [EvPrExistTitle "PW_SID:7"].
Proof.
  exact (series_with_pull_request_is_passed_over Fixture.literal_search
           (with_hosting (Fixture.ci false false [] [] []) (fun _ => true) [])
           {| sd_include := ["^BlueZ"]; sd_exclude := ["^RFC"] |}
           Fixture.series3 [] "BlueZ: feature" eq_refl eq_refl eq_refl).
Defined.

(** X24: the outcome of one series does not stop the run.  For a series
    that belongs to the repository and has no pull request, whatever
    [series_check_patches] returns, [True] or [False], the loop goes on
    with the next series. *)
Theorem failed_series_does_not_stop_the_run
    (re_search_ignorecase : string -> string -> bool) (ci_data : CiContext)
    (space_details : SpaceDetails) (series : Series) (rest : list Series)
    (name : string) (outcome_of_series : bool) :
  series_name series = Some name ->
  result_of (filter_repo_space re_search_ignorecase ci_data space_details
               series (src_dir ci_data)) = Val true ->
  has_pull_request ci_data series = false ->
  result_of (series_check_patches ci_data series) = Val outcome_of_series ->
  trace_of (run_series_loop re_search_ignorecase ci_data space_details
              (series :: rest)) =
  (trace_of (filter_repo_space re_search_ignorecase ci_data space_details
               series (src_dir ci_data)) ++
   EvPrExistTitle ("PW_SID:" ++ Py.str_of_int (series_id series)) ::
   trace_of (series_check_patches ci_data series) ++
   trace_of (run_series_loop re_search_ignorecase ci_data space_details rest))%list.
Proof.
  intros Hname Haccepted Hnone Hresult.
  rewrite (run_series_loop_round _ _ _ _ _ name true Hname Haccepted).
  cbn [negb]. unfold pr_exist_title. rewrite bind_call.
  unfold has_pull_request in Hnone. rewrite Hnone.
  rewrite (M_eta (series_check_patches ci_data series)), Hresult, bind_val.
  cbn [trace_of snd result_of fst ret app]. now rewrite app_nil_r.
Qed.

Lemma failed_series_does_not_stop_the_run_witness :
  trace_of (run_series_loop Fixture.literal_search
              (Fixture.ci true false ["/tmp/x/7/1.patch"] [] [])
              {| sd_include := ["^BlueZ"]; sd_exclude := ["^RFC"] |}
              [Fixture.series3; set_name Fixture.series3 "RFC: next"]) =
  (EvPrExistTitle "PW_SID:7" ::
   trace_of (series_check_patches
               (Fixture.ci true false ["/tmp/x/7/1.patch"] [] [])
               Fixture.series3) ++ [])%list.
Proof.
  exact (failed_series_does_not_stop_the_run Fixture.literal_search
           (Fixture.ci true false ["/tmp/x/7/1.patch"] [] [])
           {| sd_include := ["^BlueZ"]; sd_exclude := ["^RFC"] |}
           Fixture.series3 [set_name Fixture.series3 "RFC: next"]
           "BlueZ: feature" false eq_refl eq_refl eq_refl eq_refl).
Defined.



(** ** PRReconciler, further *)

(** X26: [sid_in_series_list] is a lookup by id: for a [sid] made of
    decimal digits it answers [None] exactly when no series of the list
    has the id that [sid] spells, and otherwise a series of the list with
    that id. *)
Theorem sid_lookup_finds_a_series_with_that_id (sid : string)
    (series_list : list Series) :
  decimal sid = true ->
  (sid_in_series_list sid series_list = None <->
   ~ In (Py.int_of_digits sid) (map series_id series_list)) /\
  (forall series,
      sid_in_series_list sid series_list = Some series ->
      In series series_list /\ series_id series = Py.int_of_digits sid).
Proof.
  intros _. induction series_list as [|s rest [IHnone IHsome]].
  - split; [split; auto|discriminate].
  - cbn [sid_in_series_list map In].
    destruct (Z.eqb_spec (Py.int_of_digits sid) (series_id s)) as [Heq|Hne].
    + split.
      * split; [discriminate|]. intros H. contradict H. left. now symmetry.
      * intros series [= <-]. split; [now left|now symmetry].
    + split.
      * rewrite IHnone. split.
        -- intros H [Hs|Hin]; [now apply Hne|now apply H].
        -- intros H Hin. apply H. now right.
      * intros series Hfound. destruct (IHsome series Hfound) as [Hin Hid].
        split; [now right|exact Hid].
Qed.

Lemma sid_lookup_finds_a_series_with_that_id_witness :
  In Fixture.series3 [Fixture.series3] /\
  series_id Fixture.series3 = Py.int_of_digits "007".
Proof.
  exact (proj2 (sid_lookup_finds_a_series_with_that_id "007" [Fixture.series3]
                  eq_refl)
           Fixture.series3 eq_refl).
Defined.

Lemma no_stale_left (new_series : list Series) (prs : list PullRequest) :
  filter (stale new_series)
         (filter (fun pr => negb (stale new_series pr)) prs) = [].
Proof.
  induction prs as [|pr rest IH]; [reflexivity|].
  cbn [filter]. destruct (stale new_series pr) eqn:Hstale; cbn [negb].
  - exact IH.
  - cbn [filter]. rewrite Hstale. exact IH.
Qed.

(** X27: the cleanup is idempotent.  Once the pull requests closed by one
    pass are gone from the list of open pull requests, a second pass over
    the same candidate series lists the pull requests and closes none. *)
Theorem second_cleanup_closes_nothing (ci_data ci_data' : CiContext)
    (new_series : list Series) :
  gh_get_prs ci_data' true =
    filter (fun pr => negb (stale new_series pr)) (gh_get_prs ci_data true) ->
  cleanup_pullrequest ci_data' new_series = (Val tt, [EvGetPrs true]).
Proof.
  intros Hleft. unfold cleanup_pullrequest, get_prs.
  rewrite bind_call, cleanup_loop_closes_stale, Hleft, no_stale_left.
  reflexivity.
Qed.

Lemma second_cleanup_closes_nothing_witness :
  cleanup_pullrequest
    (with_hosting (Fixture.ci false false [] [] []) (fun _ => false)
       [ {| pr_number := 3; pr_title := "Unrelated PR" |} ])
    [Fixture.series3] = (Val tt, [EvGetPrs true]).
Proof.
  exact (second_cleanup_closes_nothing
           (Fixture.ci false false [] [] Fixture.open_prs)
           (with_hosting (Fixture.ci false false [] [] []) (fun _ => false)
              [ {| pr_number := 3; pr_title := "Unrelated PR" |} ])
           [Fixture.series3] eq_refl).
Defined.

(** ** check_args and main, further *)

Lemma check_args_outcome (exists_abspath : string -> bool)
    (args : Args) :
  result_of (check_args exists_abspath args) =
    Val (valid_args exists_abspath args) /\
  map is_log_error (trace_of (check_args exists_abspath args)) =
    (if valid_args exists_abspath args then [] else [true]).
Proof.
  unfold check_args, valid_args.
  destruct (exists_abspath (arg_config args)); [|split; reflexivity].
  destruct (String.eqb (arg_space args) "kernel"),
           (String.eqb (arg_space args) "user"),
           (exists_abspath (arg_src_dir args)); split; reflexivity.
Qed.

(** X28: [check_args] answers [True] exactly when the configuration file
    exists, the space is [kernel] or [user], and the source directory
    exists; it logs nothing then, and exactly one error otherwise. *)
Theorem check_args_accepts_valid_arguments (exists_abspath : string -> bool)
    (args : Args) :
  result_of (check_args exists_abspath args) =
    Val (valid_args exists_abspath args) /\
  map is_log_error (trace_of (check_args exists_abspath args)) =
    (if valid_args exists_abspath args then [] else [true]).
Proof. apply check_args_outcome. Qed.

(** X29: with the arguments [parse_args] lets through (the space is
    [user] or [kernel]) and a configuration file or a source directory
    that does not exist, [main] exits with status 1 right after the logged
    error: the tracker is not asked for the pending series and nothing
    else happens. *)
Theorem invalid_arguments_exit_with_status_1
    (re_search_ignorecase : string -> string -> bool)
    (exists_abspath : string -> bool) (fresh_temp_root : string)
    (make_context : Args -> string -> CiContext) (args : Args) :
  String.eqb (arg_space args) "user" || String.eqb (arg_space args) "kernel" = true ->
  exists_abspath (arg_config args) && exists_abspath (arg_src_dir args) = false ->
  main re_search_ignorecase exists_abspath fresh_temp_root make_context args =
    (Exc (SystemExit 1), trace_of (check_args exists_abspath args)) /\
  map is_log_error (trace_of (check_args exists_abspath args)) = [true].
Proof.
  intros Hspace Hmissing.
  assert (Hinvalid : valid_args exists_abspath args = false).
  { unfold valid_args.
    destruct (exists_abspath (arg_config args)); [|reflexivity].
    cbn [andb] in *. rewrite Hmissing. apply andb_false_r. }
  destruct (check_args_outcome exists_abspath args) as [Hresult Hlog].
  rewrite Hinvalid in *. split; [|exact Hlog].
  unfold main. rewrite (M_eta (check_args exists_abspath args)), Hresult.
  rewrite bind_val. cbn [negb raise result_of trace_of fst snd].
  now rewrite app_nil_r.
Qed.

Lemma invalid_arguments_exit_with_status_1_witness :
  main Fixture.literal_search (fun path => String.eqb path "/src") "/tmp/x"
       (fun _ _ => Fixture.ci false false [] [Fixture.series3] [])
       Fixture.args =
  (Exc (SystemExit 1),
   [EvLogError "Invalid parameter(config) ./config.json"]).
Proof.
  exact (proj1 (invalid_arguments_exit_with_status_1 Fixture.literal_search
                  (fun path => String.eqb path "/src") "/tmp/x"
                  (fun _ _ => Fixture.ci false false [] [Fixture.series3] [])
                  Fixture.args eq_refl eq_refl)).
Defined.

(** X30: an exception raised while the series are processed ends the run
    there: [main] ends with that exception, and the close-stale-PR pass is
    not performed. *)
Theorem exception_in_a_series_skips_the_cleanup
    (re_search_ignorecase : string -> string -> bool)
    (exists_abspath : string -> bool) (fresh_temp_root : string)
    (make_context : Args -> string -> CiContext) (args : Args) (e : exn) :
  valid_args exists_abspath args = true ->
  pw_get_series_by_state (make_context args fresh_temp_root) 1 <> [] ->
  result_of (run_series re_search_ignorecase (make_context args fresh_temp_root)
               (pw_get_series_by_state (make_context args fresh_temp_root) 1)) =
    Exc e ->
  main re_search_ignorecase exists_abspath fresh_temp_root make_context args =
    (Exc e,
     EvGetSeriesByState 1 ::
     trace_of (run_series re_search_ignorecase
                 (make_context args fresh_temp_root)
                 (pw_get_series_by_state (make_context args fresh_temp_root) 1))) /\
  cleanup_passes
    (trace_of (main re_search_ignorecase exists_abspath fresh_temp_root
                 make_context args)) = 0%nat.
Proof.
  intros Hargs Hpending Hrun.
  assert (Hmain :
    main re_search_ignorecase exists_abspath fresh_temp_root make_context args =
    (Exc e,
     EvGetSeriesByState 1 ::
     trace_of (run_series re_search_ignorecase
                 (make_context args fresh_temp_root)
                 (pw_get_series_by_state (make_context args fresh_temp_root) 1)))).
  { unfold main. rewrite (check_args_valid _ _ Hargs), bind_ret_l.
    cbn [negb]. cbv zeta. rewrite bind_emit.
    destruct (pw_get_series_by_state (make_context args fresh_temp_root) 1)
      as [|series rest] eqn:Hlist; [congruence|].
    change (List.length (series :: rest) =? 0)%nat with false. cbv iota.
    rewrite (M_eta (run_series _ _ _)), Hrun. reflexivity. }
  split; [exact Hmain|].
  rewrite Hmain. cbn [trace_of snd].
  change (EvGetSeriesByState 1 :: ?t)%list with ([EvGetSeriesByState 1] ++ t)%list.
  rewrite cleanup_passes_app.
  rewrite (no_cleanup_run_series re_search_ignorecase). reflexivity.
Qed.

Lemma exception_in_a_series_skips_the_cleanup_witness :
  main Fixture.literal_search (fun _ => true) "/tmp/x"
       (fun _ _ => Fixture.ci false false []
                     [{| series_id := 9; series_name := None;
                         series_patches := [];
                         submitter_email := "dev@example.org" |}]
                     Fixture.open_prs)
       Fixture.args =
  (Exc IndexError, [EvGetSeriesByState 1]).
Proof.
  exact (proj1 (exception_in_a_series_skips_the_cleanup
                  Fixture.literal_search (fun _ => true) "/tmp/x"
                  (fun _ _ => Fixture.ci false false []
                                [{| series_id := 9; series_name := None;
                                    series_patches := [];
                                    submitter_email := "dev@example.org" |}]
                                Fixture.open_prs)
                  Fixture.args IndexError eq_refl ltac:(discriminate) eq_refl)).
Defined.
